(** * parsers/FR.py: normalisation of French production and price data

    A shallow embedding of [parsers/FR.py] (production rows of the
    eco2mix JSON data set, day-ahead prices of the RTE XML feed) and the
    properties of its two normalisers.

    Python values are embedded as follows.
    - [float] is IEEE 754 binary64, taken from the Standard Library's
      [SpecFloat] (an inductive, executable model; NaN carries no payload).
    - A [dict] is an association list with unique keys that keeps the
      insertion order, as Python's dictionaries do.
    - Exceptions are the [Raise] results of an error monad: an exception
      aborts the whole call, since the file catches none.
    - The builtins [float()], [int()] and [arrow.get()] are the fields of
      the class [Builtins]; every theorem holds for all its instances.
    - An aware [datetime] is its wall-clock reading with the name of its
      zone; the offsets of the zones from UTC are the field of the class
      [TzDatabase], which turns a datetime into an absolute instant. *)

From Stdlib Require Import ZArith List String Ascii Bool Lia.
From Stdlib Require Import SpecFloat Sorted.
Import ListNotations.

Set Implicit Arguments.
Local Open Scope Z_scope.
Local Open Scope string_scope.

(** ** Exceptions *)

Inductive exn : Type :=
| KeyError
| ValueError
| TypeError
| OverflowError
| ParserError.

Inductive result (A : Type) : Type :=
| Ok (a : A)
| Raise (e : exn).

Arguments Ok {A} a.
Arguments Raise {A} e.

Definition bind {A B : Type} (c : result A) (k : A -> result B) : result B :=
  match c with
  | Ok a => k a
  | Raise e => Raise e
  end.

Notation "'let!' x ':=' c 'in' k" := (bind c (fun x => k))
  (at level 10, x pattern, c at level 100, k at level 200).

(** [orelse o e]: the value of [o], or the exception [e]. *)
Definition orelse {A : Type} (o : option A) (e : exn) : result A :=
  match o with
  | Some a => Ok a
  | None => Raise e
  end.

(** A [for] loop whose body updates an accumulator and may raise. *)
Fixpoint for_each {A S : Type} (body : S -> A -> result S)
    (xs : list A) (s : S) : result S :=
  match xs with
  | [] => Ok s
  | x :: rest => let! s' := body s x in for_each body rest s'
  end.

(** A comprehension whose element expression may raise. *)
Fixpoint traverse {A B : Type} (f : A -> result B) (xs : list A)
    : result (list B) :=
  match xs with
  | [] => Ok []
  | x :: rest =>
      let! y := f x in
      let! ys := traverse f rest in
      Ok (y :: ys)
  end.

(** ** Python floats (binary64) *)

Module Float64.

Definition prec : Z := 53.
Definition emax : Z := 1024.

Definition float : Type := spec_float.

Definition nan : float := S754_nan.
Definition zero : float := S754_zero false.

Definition add : float -> float -> float := SFadd prec emax.
Definition mul : float -> float -> float := SFmul prec emax.
Definition div : float -> float -> float := SFdiv prec emax.
Definition opp : float -> float := SFopp.
Definition eqb : float -> float -> bool := SFeqb.

(** [float(n)] for a Python [int]; rounds to nearest even. *)
Definition of_Z (n : Z) : float := binary_normalize prec emax n 0 false.

(** [math.isnan] *)
Definition isnan (x : float) : bool :=
  match x with
  | S754_nan => true
  | _ => false
  end.

Definition isinf (x : float) : bool :=
  match x with
  | S754_infinity _ => true
  | _ => false
  end.

(** [bool(x)]: [x != 0.0]; both zeros are falsy, NaN is truthy. *)
Definition truthy (x : float) : bool := negb (eqb x zero).

(** The well-formed binary64 values. *)
Definition valid (x : float) : bool := valid_binary prec emax x.

(** Equality as a reader of two records sees it: Python's [==], which
    identifies the two zeros, extended to relate NaN with NaN. *)
Definition same (x y : float) : bool :=
  (isnan x && isnan y) || eqb x y.

End Float64.

Import Float64.

(** ** Dictionaries *)

Section Dict.

Variables K V : Type.
Variable key_eqb : K -> K -> bool.

Definition dict : Type := list (K * V).

(** [d.get(k)] *)
Fixpoint dict_get (k : K) (d : dict) : option V :=
  match d with
  | [] => None
  | (k', v) :: rest => if key_eqb k k' then Some v else dict_get k rest
  end.

(** [k in d] *)
Definition dict_mem (k : K) (d : dict) : bool :=
  match dict_get k d with
  | Some _ => true
  | None => false
  end.

(** [d[k] = v]: an existing key keeps its position, a new key goes last. *)
Fixpoint dict_set (k : K) (v : V) (d : dict) : dict :=
  match d with
  | [] => [(k, v)]
  | (k', v') :: rest =>
      if key_eqb k k' then (k', v) :: rest
      else (k', v') :: dict_set k v rest
  end.

Definition dict_keys (d : dict) : list K := map fst d.
Definition dict_values (d : dict) : list V := map snd d.

End Dict.

Arguments dict_get {K V} key_eqb k d.
Arguments dict_mem {K V} key_eqb k d.
Arguments dict_set {K V} key_eqb k v d.
Arguments dict_keys {K V} d.
Arguments dict_values {K V} d.

(** Dictionaries keyed by strings. *)
Definition sget {V : Type} : string -> dict string V -> option V :=
  dict_get String.eqb.
Definition sset {V : Type} : string -> V -> dict string V -> dict string V :=
  dict_set String.eqb.
Definition smem {V : Type} : string -> dict string V -> bool :=
  dict_mem String.eqb.

(** ** JSON values and the builtins *)

(** What [json.loads] yields for a field of a record.  Arrays and objects
    are not told apart: no operation of the parser looks inside one. *)
Inductive json : Type :=
| JNull
| JBool (b : bool)
| JInt (n : Z)
| JFloat (f : float)
| JStr (s : string)
| JCompound.

(** A Python [datetime] with its [tzinfo]: the wall-clock reading in
    microseconds since 1970-01-01T00:00:00 on that clock, and the zone's
    name. *)
Record instant : Type := mk_instant {
  wall : Z;
  tz : string
}.

(** [datetime.min] (year 1) and [datetime.max] (year 9999). *)
Definition datetime_min : Z := -62135596800000000.
Definition datetime_max : Z := 253402300799999999.

(** Equality of dictionary keys.  Python compares two aware datetimes
    that share their [tzinfo] by their wall clocks; the keys of
    [fetch_price] all carry the zone Europe/Paris. *)
Definition instant_eqb (a b : instant) : bool :=
  Z.eqb (wall a) (wall b) && String.eqb (tz a) (tz b).

(** The library functions the parser calls.  [None] is the call raising:
    [ValueError] for [float] and [int], [ParserError] for [arrow.get]. *)
Class Builtins : Type := {
  py_float : string -> option float;
  py_int : string -> option Z;
  arrow_get : json -> option instant
}.

(** The time zone database that [dateutil] reads: [utcoffset] is
    [dt.utcoffset()], the offset of the zone of the datetime from UTC at
    its wall-clock reading, in microseconds. *)
Class TzDatabase : Type := {
  utcoffset : instant -> Z
}.

(** The absolute instant of an aware datetime, in microseconds since
    1970-01-01T00:00:00 UTC: what [dt.timestamp()] and [dt.isoformat()]
    denote. *)
Definition utc {T : TzDatabase} (i : instant) : Z :=
  wall i - utcoffset i.

(** ** The tables of the module *)

Definition MAP_GENERATION : dict string string :=
  [ ("nucleaire", "nuclear");
    ("charbon", "coal");
    ("gaz", "gas");
    ("fioul", "oil");
    ("eolien", "wind");
    ("solaire", "solar");
    ("bioenergies", "biomass") ].

Definition MAP_HYDRO : list string :=
  [ "hydraulique_fil_eau_eclusee";
    "hydraulique_lacs";
    "hydraulique_step_turbinage";
    "pompage" ].

(** [is_not_nan_and_truthy], on the floats it is called with: the values
    of the production mapping are floats once [astype(float)] has run, so
    the [isinstance(v, float)] test holds. *)
Definition is_not_nan_and_truthy (v : float) : bool :=
  if isnan v then false else truthy v.

(** ** Production *)

Module Production.

(** One element of [data]: the [fields] object of a record. *)
Definition fields : Type := dict string json.

(** A row of the data frame once the columns are selected and the value
    columns converted: the untouched [date_heure] cell and one float per
    value column. *)
Record series : Type := mk_series {
  date_heure : json;
  values : dict string float
}.

Record datapoint : Type := mk_datapoint {
  zoneKey : string;
  datetime : instant;
  production : dict string float;
  storage : dict string float;
  source : string
}.

(** [list(MAP_GENERATION.keys()) + MAP_HYDRO] *)
Definition value_columns : list string :=
  (dict_keys MAP_GENERATION ++ MAP_HYDRO)%list.

(** [pd.DataFrame(data)], line 67: while pandas works out the type of
    each column it converts the integers it meets to floats, and
    [OverflowError] is raised on an integer too large for a float,
    whichever column holds it. *)
Definition too_large (v : json) : bool :=
  match v with
  | JInt n => isinf (of_Z n)
  | _ => false
  end.

Definition DataFrame (data : list fields) : result (list fields) :=
  if existsb (fun r : fields => existsb too_large (dict_values r)) data
  then Raise OverflowError
  else Ok data.

(** In the frame a column exists when some row has the field, and a row
    without the field holds NaN there. *)
Definition has_column (data : list fields) (c : string) : bool :=
  existsb (smem c) data.

Definition cell (r : fields) (c : string) : json :=
  match sget c r with
  | Some v => v
  | None => JFloat nan
  end.

(** [row[1][key]] *)
Definition loc (s : series) (key : string) : result float :=
  orelse (sget key (values s)) KeyError.

Section WithBuiltins.

Context {B : Builtins}.

(** What [astype(float)] does to one cell.  pandas raises on the first
    cell it cannot convert; which of [ValueError], [TypeError] and
    [OverflowError] it is depends on the cell. *)
Definition astype_float (v : json) : result float :=
  match v with
  | JNull => Ok nan
  | JBool b => Ok (of_Z (if b then 1 else 0))
  | JInt n => if isinf (of_Z n) then Raise OverflowError else Ok (of_Z n)
  | JFloat f => Ok f
  | JStr s => orelse (py_float s) ValueError
  | JCompound => Raise TypeError
  end.

Definition convert_row (r : fields) : result series :=
  let! vs := traverse
               (fun c => let! f := astype_float (cell r c) in Ok (c, f))
               value_columns in
  Ok (mk_series (cell r "date_heure") vs).

(** Lines 67 to 72: the frame, the selection of the columns
    ([KeyError] when one is not in the frame) and the conversion. *)
Definition build_frame (data : list fields) : result (list series) :=
  let! rows := DataFrame data in
  if forallb (has_column rows) ("date_heure" :: value_columns)
  then traverse convert_row rows
  else Raise KeyError.

(** Lines 76 to 81: the [production] dictionary of a row. *)
Definition build_production (s : series) : result (dict string float) :=
  let! production :=
    for_each
      (fun production kv =>
         let! v := loc s (fst kv) in
         Ok (sset (snd kv) v production))
      MAP_GENERATION [] in
  let! lacs := loc s "hydraulique_lacs" in
  let! fil_eau := loc s "hydraulique_fil_eau_eclusee" in
  Ok (sset "hydro" (add lacs fil_eau) production).

(** Lines 82 to 84: the [storage] dictionary of a row. *)
Definition build_storage (s : series) : result (dict string float) :=
  let! pompage := loc s "pompage" in
  let! turbinage := loc s "hydraulique_step_turbinage" in
  Ok [("hydro", add (mul pompage (of_Z (-1))) (mul turbinage (of_Z (-1))))].

(** Lines 87 and 88: the test of the quality gate. *)
Definition passes_gate (production : dict string float) : bool :=
  existsb is_not_nan_and_truthy (dict_values production).

(** The body of the loop over the rows. *)
Definition row_step (zone_key : string) (datapoints : list datapoint)
    (s : series) : result (list datapoint) :=
  let! production := build_production s in
  let! storage := build_storage s in
  if negb (passes_gate production) then Ok datapoints
  else
    let! dt := orelse (arrow_get (date_heure s)) ParserError in
    Ok (datapoints ++
        [mk_datapoint zone_key dt production storage
                      "opendata.reseaux-energies.fr"])%list.

(** [fetch_production], from the parsed response on: [data] is the
    list of the [fields] of the records of the response. *)
Definition fetch_production (zone_key : string) (data : list fields)
    : result (list datapoint) :=
  let! df := build_frame data in
  for_each (row_step zone_key) df [].

(** *** Notions used to state the properties *)

(** A converted row holds one float for each value column, in the
    order of [value_columns]. *)
Definition shaped (s : series) : Prop :=
  dict_keys (values s) = value_columns.

(** The test of the gate, on a converted row. *)
Definition passing (s : series) : bool :=
  match build_production s with
  | Ok production => passes_gate production
  | Raise _ => false
  end.

(** [r] is the record the loop appends for the row [s]. *)
Definition emitted (zone_key : string) (s : series) (r : datapoint)
    : Prop :=
  zoneKey r = zone_key
  /\ arrow_get (date_heure s) = Some (datetime r)
  /\ build_production s = Ok (production r)
  /\ build_storage s = Ok (storage r)
  /\ source r = "opendata.reseaux-energies.fr".

(** The value of a column in a converted row; NaN where the row has no
    such column. *)
Definition column (s : series) (c : string) : float :=
  match sget c (values s) with
  | Some v => v
  | None => nan
  end.

(** The eleven upstream columns that hold a quantity. *)
Definition upstream_columns : list string :=
  [ "nucleaire"; "charbon"; "gaz"; "fioul"; "eolien"; "solaire";
    "bioenergies"; "hydraulique_fil_eau_eclusee"; "hydraulique_lacs";
    "hydraulique_step_turbinage"; "pompage" ].

(** The technology values of a row as the specification lists them: the
    seven columns that map to a technology and the sum of the two hydro
    production columns, each under the key of the production mapping. *)
Definition technology_values (s : series) : dict string float :=
  [ ("nuclear", column s "nucleaire");
    ("coal", column s "charbon");
    ("gas", column s "gaz");
    ("oil", column s "fioul");
    ("wind", column s "eolien");
    ("solar", column s "solaire");
    ("biomass", column s "bioenergies");
    ("hydro", add (column s "hydraulique_lacs")
                  (column s "hydraulique_fil_eau_eclusee")) ].

(** A value that is present (not NaN) and truthy (not zero). *)
Definition present_and_truthy (v : float) : bool :=
  negb (isnan v) && truthy v.

(** Some technology value of the row is present and truthy. *)
Definition has_technology_value (s : series) : bool :=
  existsb present_and_truthy (dict_values (technology_values s)).

(** The key of the production mapping that each upstream column feeds. *)
Definition feeds : dict string string :=
  (MAP_GENERATION
   ++ [ ("hydraulique_lacs", "hydro");
        ("hydraulique_fil_eau_eclusee", "hydro") ])%list.

(** The row [s] with other values in its two storage columns. *)
Definition with_storage (s : series) (pomp turb : float) : series :=
  mk_series (date_heure s)
            (sset "pompage" pomp
                  (sset "hydraulique_step_turbinage" turb (values s))).

(** No cell of the payload, in whichever column, holds an integer too
    large for a float. *)
Definition float_sized (data : list fields) : Prop :=
  forall r v, In r data -> In v (dict_values r) -> too_large v = false.

(** Two rows agree on the twelve columns that line 71 selects. *)
Definition same_columns (r r' : fields) : Prop :=
  forall c, In c ("date_heure" :: value_columns) -> sget c r = sget c r'.

(** The record [r] under another zone key. *)
Definition relabel (zone_key : string) (r : datapoint) : datapoint :=
  mk_datapoint zone_key (datetime r) (production r) (storage r) (source r).

End WithBuiltins.

End Production.

(** ** Prices *)

Module Price.

(** An [xml.etree.ElementTree.Element]. *)
#[local] Unset Elimination Schemes.
Inductive element : Type :=
| Element (tag : string) (attrib : dict string string)
          (text : option string) (children : list element).
#[local] Set Elimination Schemes.

Definition tag (e : element) : string :=
  let 'Element t _ _ _ := e in t.
Definition attrib (e : element) : dict string string :=
  let 'Element _ a _ _ := e in a.
Definition text (e : element) : option string :=
  let 'Element _ _ t _ := e in t.
Definition children (e : element) : list element :=
  let 'Element _ _ _ c := e in c.

(** [e.get(k) == s] *)
Definition attrib_is (e : element) (k s : string) : bool :=
  match sget k (attrib e) with
  | Some v => String.eqb v s
  | None => false
  end.

(** [value.text == 'ND'] *)
Definition is_sentinel (value : element) : bool :=
  match text value with
  | Some t => String.eqb t "ND"
  | None => false
  end.

(** The dictionary stored under a timestamp; [price] is [None] while the
    key ['price'] is not set. *)
Record datum : Type := mk_datum {
  zoneKey : string;
  currency : string;
  datetime : instant;
  source : string;
  price : option float
}.

Definition set_price (d : datum) (p : float) : datum :=
  mk_datum (zoneKey d) (currency d) (datetime d) (source d) (Some p).

Definition iget : instant -> dict instant datum -> option datum :=
  dict_get instant_eqb.
Definition iset : instant -> datum -> dict instant datum
                  -> dict instant datum :=
  dict_set instant_eqb.
Definition imem : instant -> dict instant datum -> bool :=
  dict_mem instant_eqb.

Definition hour : Z := 3600000000.

(** [arrow.get(dt, 'Europe/Paris')]: the wall clock of [dt], read in the
    zone. *)
Definition fromdatetime (dt : instant) (zone : string) : instant :=
  mk_instant (wall dt) zone.

(** [start_date.replace(hours=+period).datetime].  In the arrow releases
    the parser was written for, [replace] with a plural unit shifts: the
    wall clock moves by [period] hours and keeps its zone; a result
    outside [datetime]'s range raises. *)
Definition replace_hours (start_date : instant) (period : Z)
    : result instant :=
  let w := wall start_date + period * hour in
  if Z.leb datetime_min w && Z.leb w datetime_max
  then Ok (mk_instant w (tz start_date))
  else Raise OverflowError.

Section WithBuiltins.

Context {B : Builtins}.

(** [float(value.text)] *)
Definition float_of_text (t : option string) : result float :=
  match t with
  | Some s => orelse (py_float s) ValueError
  | None => Raise TypeError
  end.

(** Lines 133 to 145: the body of the loop over the values of an item.
    The record is stored first, without a price, and then updated in
    place. *)
Definition value_step (zone_key : string) (start_date : instant)
    (datas : dict instant datum) (value : element)
    : result (dict instant datum) :=
  if is_sentinel value then Ok datas
  else
    let! periode := orelse (sget "periode" (attrib value)) KeyError in
    let! period := orelse (py_int periode) ValueError in
    let! dt := replace_hours start_date period in
    let datas :=
      if negb (imem dt datas)
      then iset dt (mk_datum zone_key "EUR" dt "rte-france.com" None) datas
      else datas in
    let! data := orelse (iget dt datas) KeyError in
    let! p := float_of_text (text value) in
    Ok (iset dt (set_price data p) datas).

(** Lines 126 to 132: the body of the loop over the items of a day. *)
Definition item_step (zone_key : string) (start_date : instant)
    (datas : dict instant datum) (item : element)
    : result (dict instant datum) :=
  if negb (attrib_is item "granularite" "Global") then Ok datas
  else if negb (attrib_is item "perimetre" zone_key) then Ok datas
  else for_each (value_step zone_key start_date) (children item) datas.

(** Line 123: the start of the day, anchored in the zone. *)
Definition start_of (day : element) : result instant :=
  let! date := orelse (sget "date" (attrib day)) KeyError in
  let! dt := orelse (arrow_get (JStr date)) ParserError in
  Ok (fromdatetime dt "Europe/Paris").

(** Lines 120 to 125: the body of the loop over the children of the
    root. *)
Definition day_step (zone_key : string) (datas : dict instant datum)
    (donnesMarche : element) : result (dict instant datum) :=
  if negb (String.eqb (tag donnesMarche) "donneesMarche") then Ok datas
  else
    let! start_date := start_of donnesMarche in
    for_each (item_step zone_key start_date) (children donnesMarche) datas.

(** [fetch_price], from the parsed response on: [obj] is the root
    element of the document. *)
Definition fetch_price (zone_key : string) (obj : element)
    : result (list datum) :=
  let! datas := for_each (day_step zone_key) (children obj) [] in
  Ok (dict_values datas).

(** *** Notions used to state the properties *)

(** What a value contributes: the timestamp and the price of a usable
    period-entry, nothing for a sentinel. *)
Definition value_entries (start_date : instant) (value : element)
    : result (list (instant * float)) :=
  if is_sentinel value then Ok []
  else
    let! periode := orelse (sget "periode" (attrib value)) KeyError in
    let! period := orelse (py_int periode) ValueError in
    let! dt := replace_hours start_date period in
    let! p := float_of_text (text value) in
    Ok [(dt, p)].

Definition item_entries (zone_key : string) (start_date : instant)
    (item : element) : result (list (instant * float)) :=
  if negb (attrib_is item "granularite" "Global") then Ok []
  else if negb (attrib_is item "perimetre" zone_key) then Ok []
  else
    let! ess := traverse (value_entries start_date) (children item) in
    Ok (List.concat ess).

Definition day_entries (zone_key : string) (day : element)
    : result (list (instant * float)) :=
  if negb (String.eqb (tag day) "donneesMarche") then Ok []
  else
    let! start_date := start_of day in
    let! ess := traverse (item_entries zone_key start_date) (children day) in
    Ok (List.concat ess).

(** The usable period-entries of the requested zone, in the order in which
    the three nested loops meet them. *)
Definition entries (zone_key : string) (obj : element)
    : result (list (instant * float)) :=
  let! ess := traverse (day_entries zone_key) (children obj) in
  Ok (List.concat ess).

(** What a usable entry does to the accumulated mapping. *)
Definition upsert (zone_key : string) (datas : dict instant datum)
    (e : instant * float) : dict instant datum :=
  iset (fst e)
       (mk_datum zone_key "EUR" (fst e) "rte-france.com" (Some (snd e)))
       datas.

(** Every record of the mapping is complete and filed under its own
    timestamp. *)
Definition coherent (zone_key : string) (datas : dict instant datum)
    : Prop :=
  Forall (fun kd =>
            exists p,
              snd kd = mk_datum zone_key "EUR" (fst kd) "rte-france.com"
                                (Some p))
         datas.


(** The timestamps of a list of records, as wall-clock readings. *)
Definition timestamps (out : list datum) : list Z :=
  map (fun r => wall (datetime r)) out.

(** [ts] and [p] are the timestamp and the price of a usable period-entry
    of the document: an entry other than the sentinel, of a [Global] item
    of the requested zone, in a [donneesMarche] block; [ts] is the start
    of the block's day in Europe/Paris plus [periode] hours. *)
Inductive usable (zone_key : string) (obj : element) (ts : instant)
    (p : float) : Prop :=
| usable_entry (day item value : element) (date periode t : string)
    (dt : instant) (period : Z) :
    In day (children obj) ->
    tag day = "donneesMarche" ->
    sget "date" (attrib day) = Some date ->
    arrow_get (JStr date) = Some dt ->
    In item (children day) ->
    sget "granularite" (attrib item) = Some "Global" ->
    sget "perimetre" (attrib item) = Some zone_key ->
    In value (children item) ->
    text value = Some t ->
    t <> "ND" ->
    sget "periode" (attrib value) = Some periode ->
    py_int periode = Some period ->
    ts = mk_instant (wall dt + period * hour) "Europe/Paris" ->
    py_float t = Some p ->
    usable zone_key obj ts p.

(** [start] is the start of the day of a block: the date of the block,
    at 00:00 on the clock of Europe/Paris. *)
Definition day_start (day : element) (start : instant) : Prop :=
  exists date dt,
    sget "date" (attrib day) = Some date
    /\ arrow_get (JStr date) = Some dt
    /\ start = mk_instant (wall dt) "Europe/Paris".

(** The same entry with its block and its period in view: [value] is a
    usable period-entry of the [donneesMarche] block [day] of the
    document, for the requested zone, with [periode] reading [period] and
    the price [p]. *)
Inductive usable_in (zone_key : string) (obj : element)
    (day value : element) (period : Z) (p : float) : Prop :=
| usable_in_entry (item : element) (periode t : string) :
    In day (children obj) ->
    tag day = "donneesMarche" ->
    In item (children day) ->
    sget "granularite" (attrib item) = Some "Global" ->
    sget "perimetre" (attrib item) = Some zone_key ->
    In value (children item) ->
    text value = Some t ->
    t <> "ND" ->
    sget "periode" (attrib value) = Some periode ->
    py_int periode = Some period ->
    py_float t = Some p ->
    usable_in zone_key obj day value period p.

End WithBuiltins.

(** The document without its sentinel entries. *)
Definition strip_item (item : element) : element :=
  Element (tag item) (attrib item) (text item)
          (filter (fun v => negb (is_sentinel v)) (children item)).

Definition strip_day (day : element) : element :=
  Element (tag day) (attrib day) (text day) (map strip_item (children day)).

Definition without_sentinels (obj : element) : element :=
  Element (tag obj) (attrib obj) (text obj) (map strip_day (children obj)).

(** The test of lines 126 to 130: a [Global] item of the requested zone. *)
Definition is_match (zone_key : string) (item : element) : bool :=
  attrib_is item "granularite" "Global"
  && attrib_is item "perimetre" zone_key.

(** The document cut down to what the loops read: the [donneesMarche]
    children of the root, each with its matching items only. *)
Definition prune_day (zone_key : string) (day : element) : element :=
  Element (tag day) (attrib day) (text day)
          (filter (is_match zone_key) (children day)).

Definition prune (zone_key : string) (obj : element) : element :=
  Element (tag obj) (attrib obj) (text obj)
          (map (prune_day zone_key)
               (filter (fun d => String.eqb (tag d) "donneesMarche")
                       (children obj))).

End Price.

(** ** An instance of the builtins

    The plain fragment of the three library functions: decimal numerals
    with an optional sign and fraction for [float] and [int], and ISO 8601
    dates [YYYY-MM-DD], optionally followed by [THH:MM], for [arrow.get];
    and the offsets of Europe/Paris from UTC as [dateutil] gives them.
    It serves to run the parsers on concrete payloads. *)

Module Plain.

Definition digit (c : ascii) : option Z :=
  let n := Z.of_N (N_of_ascii c) in
  if Z.leb 48 n && Z.leb n 57 then Some (n - 48) else None.

Fixpoint digits_from (acc : Z) (s : string) : option Z :=
  match s with
  | EmptyString => Some acc
  | String c rest =>
      match digit c with
      | Some d => digits_from (10 * acc + d) rest
      | None => None
      end
  end.

(** A non-empty run of digits. *)
Definition numeral (s : string) : option Z :=
  match s with
  | EmptyString => None
  | _ => digits_from 0 s
  end.

Definition split_sign (s : string) : bool * string :=
  match s with
  | String "-" rest => (true, rest)
  | String "+" rest => (false, rest)
  | _ => (false, s)
  end.

Definition int_of_string (s : string) : option Z :=
  let (neg, body) := split_sign s in
  option_map (fun n => if neg then - n else n) (numeral body).

(** The text before the first dot, and the text after it if there is
    one. *)
Fixpoint split_dot (s : string) : string * option string :=
  match s with
  | EmptyString => (EmptyString, None)
  | String "." rest => (EmptyString, Some rest)
  | String c rest =>
      let (a, b) := split_dot rest in (String c a, b)
  end.

(** [m / 10^k] with sign [neg], rounded once to binary64. *)
Definition decimal (neg : bool) (m : Z) (k : nat) : float :=
  match m with
  | Zpos p =>
      div (S754_finite neg p 0)
          (S754_finite false (Z.to_pos (10 ^ Z.of_nat k)) 0)
  | _ => S754_zero neg
  end.

Definition float_of_string (s : string) : option float :=
  let (neg, body) := split_sign s in
  if String.eqb body "nan" || String.eqb body "NaN" then Some nan
  else if String.eqb body "inf" || String.eqb body "Infinity"
  then Some (S754_infinity neg)
  else
    let (int_part, frac) := split_dot body in
    let frac_part := match frac with Some f => f | None => EmptyString end in
    option_map (fun m => decimal neg m (String.length frac_part))
               (numeral (int_part ++ frac_part)).

(** Days from 1970-01-01 to the given day of the proleptic Gregorian
    calendar. *)
Definition days_from_civil (y m d : Z) : Z :=
  let y' := if Z.leb m 2 then y - 1 else y in
  let era := y' / 400 in
  let yoe := y' - era * 400 in
  let doy := (153 * (if Z.leb m 2 then m + 9 else m - 3) + 2) / 5 + d - 1 in
  let doe := yoe * 365 + yoe / 4 - yoe / 100 + doy in
  era * 146097 + doe - 719468.

Definition days_in_month (y m : Z) : Z :=
  if Z.eqb m 2 then
    if Z.eqb (y mod 4) 0 && (negb (Z.eqb (y mod 100) 0) || Z.eqb (y mod 400) 0)
    then 29 else 28
  else if Z.eqb m 4 || Z.eqb m 6 || Z.eqb m 9 || Z.eqb m 11 then 30
  else 31.

Definition field (s : string) (start len : nat) : option Z :=
  numeral (substring start len s).

Definition in_range (lo x hi : Z) : bool := Z.leb lo x && Z.leb x hi.

Definition time_of_day (s : string) : option Z :=
  if String.eqb s EmptyString then Some 0
  else if String.eqb (substring 0 1 s) "T" && String.eqb (substring 3 1 s) ":"
          && Nat.eqb (String.length s) 6
  then
    match field s 1 2, field s 4 2 with
    | Some h, Some mi =>
        if in_range 0 h 23 && in_range 0 mi 59
        then Some ((h * 60 + mi) * 60000000) else None
    | _, _ => None
    end
  else None.

Definition iso_datetime (s : string) : option instant :=
  if String.eqb (substring 4 1 s) "-" && String.eqb (substring 7 1 s) "-"
  then
    match field s 0 4, field s 5 2, field s 8 2,
          time_of_day (substring 10 (String.length s - 10) s) with
    | Some y, Some m, Some d, Some t =>
        if in_range 1 y 9999 && in_range 1 m 12
           && in_range 1 d (days_in_month y m)
        then Some (mk_instant (days_from_civil y m d * 86400000000 + t) "UTC")
        else None
    | _, _, _, _ => None
    end
  else None.

Definition get (v : json) : option instant :=
  match v with
  | JStr s => iso_datetime s
  | _ => None
  end.

#[export] Instance builtins : Builtins := {
  py_float := float_of_string;
  py_int := int_of_string;
  arrow_get := get
}.

(** The year of a day counted from 1970-01-01. *)
Definition year_of_days (z : Z) : Z :=
  let z := z + 719468 in
  let era := z / 146097 in
  let doe := z - era * 146097 in
  let yoe := (doe - doe / 1460 + doe / 36524 - doe / 146096) / 365 in
  let doy := doe - (365 * yoe + yoe / 4 - yoe / 100) in
  let mp := (5 * doy + 2) / 153 in
  let m := if Z.ltb mp 10 then mp + 3 else mp - 9 in
  yoe + era * 400 + (if Z.leb m 2 then 1 else 0).

(** The last Sunday of a month of 31 days, in days from 1970-01-01, which
    was a Thursday. *)
Definition last_sunday (y m : Z) : Z :=
  let d := days_from_civil y m 31 in
  d - (d + 4) mod 7.

(** The offset of Europe/Paris under the rule in force since 1996: two
    hours from the last Sunday of March to the last Sunday of October,
    one hour otherwise.  [dateutil] decides by the wall clock: summer time
    from 02:00 of the day in March, the hour that the clocks skip
    included, to 03:00 of the day in October, the first of the two
    passes through 02:00 to 03:00 included. *)
Definition paris_utcoffset (w : Z) : Z :=
  let y := year_of_days (w / 86400000000) in
  let spring := last_sunday y 3 * 86400000000 + 2 * 3600000000 in
  let autumn := last_sunday y 10 * 86400000000 + 3 * 3600000000 in
  if Z.leb spring w && Z.ltb w autumn then 2 * 3600000000 else 3600000000.

(** The two zones of the samples: Europe/Paris, and UTC for any other
    name. *)
#[export] Instance tzdata : TzDatabase := {
  utcoffset := fun i =>
    if String.eqb (tz i) "Europe/Paris" then paris_utcoffset (wall i) else 0
}.

End Plain.

(** ** Sample payloads *)

Module Samples.

Import Production.

Definition production_row (nucleaire charbon gaz fioul eolien solaire
    bioenergies fil_eau lacs turbinage pompage : json) (date : string)
    : fields :=
  [ ("nucleaire", nucleaire); ("charbon", charbon); ("gaz", gaz);
    ("fioul", fioul); ("eolien", eolien); ("solaire", solaire);
    ("bioenergies", bioenergies);
    ("hydraulique_fil_eau_eclusee", fil_eau); ("hydraulique_lacs", lacs);
    ("hydraulique_step_turbinage", turbinage); ("pompage", pompage);
    ("date_heure", JStr date) ].

(** Scenario A: nuclear 300, wind 50, gas the text ['NaN']. *)
Definition row_a : fields :=
  production_row (JInt 300) (JInt 0) (JStr "NaN") (JInt 0) (JInt 50)
                 (JInt 0) (JInt 0) (JInt 10) (JInt 5) (JInt 0) (JInt 0)
                 "2021-01-01T00:00".

(** Scenario B: zeros and nulls only. *)
Definition row_b : fields :=
  production_row (JInt 0) JNull (JStr "NaN") (JInt 0) (JInt 0)
                 (JInt 0) (JInt 0) (JInt 0) (JInt 0) (JInt 0) (JInt 0)
                 "2021-01-01T00:15".

(** No production, but pumping and turbining. *)
Definition row_pumping : fields :=
  production_row (JInt 0) (JInt 0) (JInt 0) (JInt 0) (JInt 0)
                 (JInt 0) (JInt 0) (JInt 0) (JInt 0) (JInt 120) (JInt 800)
                 "2021-01-01T00:30".

(** Lake hydro only, and no run-of-river value. *)
Definition row_half_hydro : fields :=
  [ ("nucleaire", JInt 0); ("charbon", JInt 0); ("gaz", JInt 0);
    ("fioul", JInt 0); ("eolien", JInt 0); ("solaire", JInt 0);
    ("bioenergies", JInt 0); ("hydraulique_lacs", JInt 5);
    ("hydraulique_step_turbinage", JInt 0); ("pompage", JInt 0);
    ("date_heure", JStr "2021-01-01T00:45") ].

Definition row_wind : fields :=
  production_row (JInt 0) (JInt 0) (JInt 0) (JInt 0) (JFloat (of_Z 75))
                 (JInt 0) (JInt 0) (JInt 0) (JInt 0) (JInt 0) (JInt 0)
                 "2021-01-01T01:00".

(** A value that is not a number. *)
Definition row_garbled : fields :=
  production_row (JInt 300) (JStr "n/a") (JInt 0) (JInt 0) (JInt 50)
                 (JInt 0) (JInt 0) (JInt 10) (JInt 5) (JInt 0) (JInt 0)
                 "2021-01-01T01:15".

Definition payload : list fields :=
  [row_a; row_b; row_pumping; row_half_hydro; row_wind].

(** The frame of [payload], as [build_frame] returns it. *)
Definition frame : list series :=
  Eval vm_compute in
    match build_frame (B := Plain.builtins) payload with
    | Ok df => df
    | Raise _ => []
    end.

(** The records [fetch_production] returns for [payload]. *)
Definition records : list datapoint :=
  Eval vm_compute in
    match fetch_production (B := Plain.builtins) "FR" payload with
    | Ok out => out
    | Raise _ => []
    end.

Definition blank : series := mk_series JNull [].

(** The elements of a price document. *)
Definition entry (periode t : string) : Price.element :=
  Price.Element "valeur" [("periode", periode)] (Some t) [].

Definition item (perimetre granularite : string)
    (values : list Price.element) : Price.element :=
  Price.Element "type" [("perimetre", perimetre); ("granularite", granularite)]
                None values.

Definition day (date : string) (items : list Price.element)
    : Price.element :=
  Price.Element "donneesMarche" [("date", date)] None items.

Definition document (days : list Price.element) : Price.element :=
  Price.Element "liste" [] None days.

(** Scenario C: one day, one item of zone FR, the second entry is the
    sentinel. *)
Definition scenario_c : Price.element :=
  document
    [ day "2021-01-01"
          [ item "FR" "Global"
                 [ entry "0" "45.2"; entry "1" "ND"; entry "2" "46.0" ] ] ].


(** Two zones and a finer granularity, a price repeated for one hour and
    a sentinel after a price for the same hour. *)
Definition mixed : Price.element :=
  document
    [ Price.Element "entete" [] (Some "RTE") [];
      day "2021-01-01"
          [ item "DE" "Global" [ entry "0" "30.0" ];
            item "FR" "Detail" [ entry "0" "31.0" ];
            item "FR" "Global"
                 [ entry "0" "45.2"; entry "0" "ND"; entry "1" "ND";
                   entry "2" "46.0"; entry "2" "47.5" ] ];
      day "2021-01-02"
          [ item "FR" "Global" [ entry "0" "50.0"; entry "x" "ND" ] ] ].

(** The day on which Europe/Paris goes from UTC+1 to UTC+2: the hours 01:00
    and 02:00 of 2021-03-28. *)
Definition spring_forward : Price.element :=
  document
    [ day "2021-03-28"
          [ item "FR" "Global" [ entry "1" "10.0"; entry "2" "20.0" ] ] ].

(** The records [fetch_price] returns for [mixed]. *)
Definition prices : list Price.datum :=
  Eval vm_compute in
    match Price.fetch_price (B := Plain.builtins) "FR" mixed with
    | Ok out => out
    | Raise _ => []
    end.

(** The usable entries of [scenario_c] and of [mixed], as met. *)
Definition scenario_c_entries : list (instant * float) :=
  Eval vm_compute in
    match Price.entries (B := Plain.builtins) "FR" scenario_c with
    | Ok es => es
    | Raise _ => []
    end.

Definition mixed_entries : list (instant * float) :=
  Eval vm_compute in
    match Price.entries (B := Plain.builtins) "FR" mixed with
    | Ok es => es
    | Raise _ => []
    end.

(** [payload] with a column more in every row. *)
Definition payload_wide : list Production.fields :=
  map (fun r => ("consommation", JInt 50000) :: r) payload.

End Samples.

(** * Properties *)

(** ** Binary64 arithmetic *)

Section FloatFacts.

Lemma add_nan_l (x : float) : add nan x = nan.
Proof. reflexivity. Qed.

Lemma add_nan_r (x : float) : add x nan = nan.
Proof. destruct x; reflexivity. Qed.

Lemma digits2_pos_shift52 (m : positive) :
  Zpos (digits2_pos (m * 4503599627370496)) = Zpos (digits2_pos m) + 52.
Proof.
  rewrite Pos.mul_comm. cbn [Pos.mul digits2_pos]. lia.
Qed.

Lemma shr_52 (m : positive) (e : Z) :
  shr (Build_shr_record (Zpos (m * 4503599627370496)) false false) e 52
  = (Build_shr_record (Zpos m) false false, e + 52).
Proof.
  rewrite Pos.mul_comm. reflexivity.
Qed.

Lemma mul_neg_one (x : float) :
  valid x = true -> mul x (of_Z (-1)) = opp x.
Proof.
  destruct x as [s | s | | s m e]; intros Hv; try reflexivity;
    try (destruct s; reflexivity).
  change (of_Z (-1)) with (S754_finite true 4503599627370496 (-52)).
  unfold mul, SFmul, opp, SFopp.
  unfold valid, valid_binary, bounded, canonical_mantissa in Hv.
  apply andb_prop in Hv. destruct Hv as [Hc Hb].
  apply Z.eqb_eq in Hc.
  unfold binary_round_aux, shr_fexp.
  cbn [Zdigits2 shr_record_of_loc].
  rewrite digits2_pos_shift52.
  replace (fexp prec emax (Z.pos (digits2_pos m) + 52 + (e + -52)) - (e + -52))
    with 52
    by (replace (Z.pos (digits2_pos m) + 52 + (e + -52))
          with (Z.pos (digits2_pos m) + e) by lia;
        rewrite Hc; lia).
  rewrite shr_52.
  cbn [shr_m loc_of_shr_record round_nearest_even Zdigits2 shr_record_of_loc].
  replace (e + -52 + 52) with e by lia.
  rewrite Hc, Z.sub_diag. cbn [shr shr_m].
  rewrite Hb. destruct s; reflexivity.
Qed.

Lemma same_refl (x : float) : same x x = true.
Proof.
  destruct x as [s | s | | s m e]; try (destruct s; reflexivity);
    try reflexivity.
  unfold same, eqb, SFeqb, SFcompare. cbn [isnan andb orb].
  rewrite Z.compare_refl, Pos.compare_cont_refl.
  destruct s; reflexivity.
Qed.

Lemma same_of_eq (x y : float) : x = y -> same x y = true.
Proof. intros ->. apply same_refl. Qed.

Lemma opp_involutive (x : float) : opp (opp x) = x.
Proof.
  destruct x as [s | s | | s m e]; cbn; rewrite ?negb_involutive;
    reflexivity.
Qed.

Lemma binary_round_aux_sign (m e : Z) (l : location) :
  binary_round_aux prec emax true m e l
  = opp (binary_round_aux prec emax false m e l).
Proof.
  unfold binary_round_aux.
  destruct (shr_fexp prec emax m e l) as [mrs' e'].
  destruct (shr_fexp prec emax _ e' loc_Exact) as [mrs'' e''].
  destruct (shr_m mrs''); try reflexivity.
  destruct (Z.leb e'' (emax - prec)); reflexivity.
Qed.

Lemma binary_round_sign (m : positive) (e : Z) :
  binary_round prec emax true m e = opp (binary_round prec emax false m e).
Proof.
  unfold binary_round.
  destruct (shl_align m e _) as [mz ez].
  apply binary_round_aux_sign.
Qed.

Lemma binary_normalize_opp (z e : Z) :
  same (binary_normalize prec emax (- z) e false)
       (opp (binary_normalize prec emax z e false)) = true.
Proof.
  destruct z as [| p | p]; cbn [Z.opp binary_normalize].
  - reflexivity.
  - apply same_of_eq, binary_round_sign.
  - apply same_of_eq. rewrite binary_round_sign, opp_involutive. reflexivity.
Qed.

Lemma add_opp_opp (x y : float) :
  same (add (opp x) (opp y)) (opp (add x y)) = true.
Proof.
  destruct x as [sx | sx | | sx mx ex], y as [sy | sy | | sy my ey];
    try reflexivity;
    try (destruct sx, sy; reflexivity);
    try (apply same_refl);
    try (destruct sx; apply same_refl).
  set (a := Z.pos (fst (shl_align mx ex (Z.min ex ey)))).
  set (b := Z.pos (fst (shl_align my ey (Z.min ex ey)))).
  change (add (opp (S754_finite sx mx ex)) (opp (S754_finite sy my ey)))
    with (binary_normalize prec emax
            (cond_Zopp (negb sx) a + cond_Zopp (negb sy) b)
            (Z.min ex ey) false).
  change (add (S754_finite sx mx ex) (S754_finite sy my ey))
    with (binary_normalize prec emax
            (cond_Zopp sx a + cond_Zopp sy b) (Z.min ex ey) false).
  replace (cond_Zopp (negb sx) a + cond_Zopp (negb sy) b)
    with (- (cond_Zopp sx a + cond_Zopp sy b))
    by (destruct sx, sy; cbn [cond_Zopp negb]; lia).
  apply binary_normalize_opp.
Qed.

(** The two sides of [storage_sum] below can be zeros of opposite signs:
    [-500 * -1 + 500 * -1] is [0.0] and [-(-500 + 500)] is [-0.0]. *)
Remark storage_sum_zero_sign :
  add (mul (of_Z (-500)) (of_Z (-1))) (mul (of_Z 500) (of_Z (-1)))
  = S754_zero false
  /\ opp (add (of_Z (-500)) (of_Z 500)) = S754_zero true.
Proof. split; reflexivity. Qed.

(** [p * -1 + t * -1] is [-(p + t)], up to the sign of a zero result. *)
Lemma storage_sum (p t : float) :
  valid p = true -> valid t = true ->
  same (add (mul p (of_Z (-1))) (mul t (of_Z (-1)))) (opp (add p t)) = true.
Proof.
  intros Hp Ht. rewrite (mul_neg_one p Hp), (mul_neg_one t Ht).
  apply add_opp_opp.
Qed.

End FloatFacts.

(** ** Loops and comprehensions *)

Lemma bind_ok {A B : Type} (c : result A) (k : A -> result B) (b : B) :
  bind c k = Ok b -> exists a, c = Ok a /\ k a = Ok b.
Proof.
  destruct c as [a | e]; cbn; intros H; [eauto | discriminate].
Qed.

Section Loops.

Variables A B S : Type.

Lemma traverse_ok (f : A -> result B) (xs : list A) (ys : list B) :
  traverse f xs = Ok ys <-> Forall2 (fun x y => f x = Ok y) xs ys.
Proof.
  revert ys. induction xs as [| x xs IH]; intros ys; cbn.
  - split; intros H.
    + injection H as <-. constructor.
    + inversion H. reflexivity.
  - split; intros H.
    + apply bind_ok in H. destruct H as (y & Hy & H).
      destruct (traverse f xs) as [ys' | e] eqn:E; cbn in H; [| discriminate].
      injection H as <-. constructor; [assumption | now apply IH].
    + inversion H as [| x' y xs' ys' Hy Hrest]; subst.
      rewrite Hy. cbn. apply IH in Hrest. rewrite Hrest. reflexivity.
Qed.

Lemma traverse_raise (f : A -> result B) (xs : list A) (x : A) (e : exn) :
  In x xs -> f x = Raise e -> exists e', traverse f xs = Raise e'.
Proof.
  induction xs as [| x0 xs IH]; cbn; intros Hin Hx; [contradiction |].
  destruct Hin as [-> | Hin].
  - rewrite Hx. cbn. eauto.
  - destruct (f x0) as [y | e0]; cbn; [| eauto].
    destruct (IH Hin Hx) as (e' & ->). cbn. eauto.
Qed.

Lemma for_each_app (body : S -> A -> result S) (xs ys : list A) (s : S) :
  for_each body (xs ++ ys) s
  = bind (for_each body xs s) (for_each body ys).
Proof.
  revert s. induction xs as [| x xs IH]; intros s; cbn; [reflexivity |].
  destruct (body s x) as [s' | e]; cbn; [apply IH | reflexivity].
Qed.

(** A step that leaves the accumulator alone can be dropped. *)
Lemma for_each_skip (body : S -> A -> result S) (xs ys : list A) (x : A)
    (s : S) :
  (forall s', body s' x = Ok s') ->
  for_each body (xs ++ x :: ys) s = for_each body (xs ++ ys) s.
Proof.
  intros Hx. rewrite !for_each_app. cbn.
  destruct (for_each body xs s) as [s' | e]; cbn; [| reflexivity].
  rewrite Hx. reflexivity.
Qed.

End Loops.


(** ** Dictionaries *)

Section DictFacts.

Variables K V : Type.
Variable key_eqb : K -> K -> bool.
Hypothesis key_eqb_spec : forall a b, reflect (a = b) (key_eqb a b).

Lemma dict_get_set_same (k : K) (v : V) (d : dict K V) :
  dict_get key_eqb k (dict_set key_eqb k v d) = Some v.
Proof.
  induction d as [| [k' v'] d IH]; cbn.
  - destruct (key_eqb_spec k k); [reflexivity | contradiction].
  - destruct (key_eqb k k') eqn:E; cbn; rewrite E; [reflexivity | exact IH].
Qed.

Lemma dict_set_set (k : K) (v w : V) (d : dict K V) :
  dict_set key_eqb k w (dict_set key_eqb k v d) = dict_set key_eqb k w d.
Proof.
  induction d as [| [k' v'] d IH]; cbn.
  - destruct (key_eqb_spec k k); [reflexivity | contradiction].
  - destruct (key_eqb k k') eqn:E; cbn; rewrite E; [reflexivity |].
    f_equal. exact IH.
Qed.

Lemma dict_get_In (k : K) (v : V) (d : dict K V) :
  dict_get key_eqb k d = Some v -> In (k, v) d.
Proof.
  induction d as [| [k' v'] d IH]; cbn; [discriminate |].
  destruct (key_eqb_spec k k') as [-> | _].
  - intros H. injection H as ->. left. reflexivity.
  - intros H. right. apply IH, H.
Qed.

Lemma dict_mem_keys (k : K) (d : dict K V) :
  dict_mem key_eqb k d = true <-> In k (dict_keys d).
Proof.
  unfold dict_mem. induction d as [| [k' v'] d IH]; cbn.
  - split; [discriminate | contradiction].
  - destruct (key_eqb_spec k k') as [-> | Hne].
    + split; auto.
    + rewrite IH. split; [auto |]. intros [E | H]; [congruence | exact H].
Qed.

(** Setting a key appends it when it is new and keeps the keys otherwise. *)
Lemma dict_keys_set (k : K) (v : V) (d : dict K V) :
  dict_keys (dict_set key_eqb k v d)
  = if dict_mem key_eqb k d then dict_keys d else (dict_keys d ++ [k])%list.
Proof.
  unfold dict_mem, dict_keys.
  induction d as [| [k' v'] d IH]; cbn; [reflexivity |].
  destruct (key_eqb k k') eqn:E; cbn; [reflexivity |].
  rewrite IH. destruct (dict_get key_eqb k d); reflexivity.
Qed.

Lemma dict_set_In (k k' : K) (v v' : V) (d : dict K V) :
  In (k', v') (dict_set key_eqb k v d) ->
  (k' = k /\ v' = v) \/ In (k', v') d.
Proof.
  induction d as [| [k0 v0] d IH]; cbn.
  - intros [H | []]. injection H as <- <-. auto.
  - destruct (key_eqb_spec k k0) as [-> | _]; cbn.
    + intros [H | H]; [injection H as <- <-; auto | auto].
    + intros [H | H]; [auto |]. destruct (IH H); auto.
Qed.

(** The value set under a key is found among the items. *)
Lemma dict_set_has (k : K) (v : V) (d : dict K V) :
  In (k, v) (dict_set key_eqb k v d).
Proof.
  apply dict_get_In, dict_get_set_same.
Qed.

(** Items under other keys stay. *)
Lemma dict_set_keeps (k k' : K) (v v' : V) (d : dict K V) :
  k' <> k -> In (k', v') d -> In (k', v') (dict_set key_eqb k v d).
Proof.
  intros Hne. induction d as [| [k0 v0] d IH]; cbn; [contradiction |].
  destruct (key_eqb_spec k k0) as [-> | _]; cbn.
  - intros [H | H]; [injection H as <- <-; contradiction | auto].
  - intros [H | H]; auto.
Qed.

Lemma dict_keys_set_NoDup (k : K) (v : V) (d : dict K V) :
  NoDup (dict_keys d) -> NoDup (dict_keys (dict_set key_eqb k v d)).
Proof.
  intros Hd. rewrite dict_keys_set.
  destruct (dict_mem key_eqb k d) eqn:E; [exact Hd |].
  apply NoDup_app; [exact Hd | constructor; [intros [] | constructor] |].
  intros x Hx [<- | []].
  apply dict_mem_keys in Hx. congruence.
Qed.

End DictFacts.

Lemma instant_eqb_spec (a b : instant) : reflect (a = b) (instant_eqb a b).
Proof.
  unfold instant_eqb. destruct a as [wa ta], b as [wb tb]. cbn.
  destruct (Z.eqb_spec wa wb) as [-> | Hw]; cbn.
  - destruct (String.eqb_spec ta tb) as [-> | Ht]; constructor; congruence.
  - constructor. congruence.
Qed.

(** The same facts for the mapping of [fetch_price]. *)

Section InstantDict.

Import Price.

Lemma iget_iset_same (k : instant) (v : datum) (d : dict instant datum) :
  iget k (iset k v d) = Some v.
Proof. apply dict_get_set_same, instant_eqb_spec. Qed.

Lemma iset_iset (k : instant) (v w : datum) (d : dict instant datum) :
  iset k w (iset k v d) = iset k w d.
Proof. apply dict_set_set, instant_eqb_spec. Qed.

Lemma iget_In (k : instant) (v : datum) (d : dict instant datum) :
  iget k d = Some v -> In (k, v) d.
Proof. apply dict_get_In, instant_eqb_spec. Qed.

Lemma imem_keys (k : instant) (d : dict instant datum) :
  imem k d = true <-> In k (dict_keys d).
Proof. apply dict_mem_keys, instant_eqb_spec. Qed.

Lemma iset_keys (k : instant) (v : datum) (d : dict instant datum) :
  dict_keys (iset k v d)
  = if imem k d then dict_keys d else (dict_keys d ++ [k])%list.
Proof. apply dict_keys_set. Qed.

Lemma iset_In (k k' : instant) (v v' : datum) (d : dict instant datum) :
  In (k', v') (iset k v d) -> (k' = k /\ v' = v) \/ In (k', v') d.
Proof. apply dict_set_In, instant_eqb_spec. Qed.

Lemma iset_keys_NoDup (k : instant) (v : datum) (d : dict instant datum) :
  NoDup (dict_keys d) -> NoDup (dict_keys (iset k v d)).
Proof. apply dict_keys_set_NoDup, instant_eqb_spec. Qed.

End InstantDict.

(** ** The production rows *)

Section ProductionFacts.

Import Production.
Context {B : Builtins}.


Lemma convert_row_shaped (r : fields) (s : series) :
  convert_row r = Ok s -> shaped s.
Proof.
  unfold convert_row, shaped. intros H.
  apply bind_ok in H. destruct H as (vs & Hvs & H).
  injection H as <-. cbn [values].
  apply traverse_ok in Hvs.
  induction Hvs as [| c y cs ys Hy _ IH]; cbn; [reflexivity |].
  apply bind_ok in Hy. destruct Hy as (f & _ & Hy).
  injection Hy as <-. cbn. f_equal. exact IH.
Qed.

(** [pd.DataFrame] hands the rows on or raises [OverflowError]. *)
Lemma DataFrame_cases (data : list fields) :
  DataFrame data = Ok data \/ DataFrame data = Raise OverflowError.
Proof. unfold DataFrame. destruct (existsb _ data); auto. Qed.

Lemma DataFrame_ok (data rows : list fields) :
  DataFrame data = Ok rows -> rows = data /\ float_sized data.
Proof.
  unfold DataFrame. destruct (existsb _ data) eqn:E; [discriminate |].
  intros H. injection H as <-. split; [reflexivity |].
  intros r v Hr Hv.
  destruct (too_large v) eqn:Ev; [| reflexivity].
  assert (existsb (fun r : fields => existsb too_large (dict_values r)) data
          = true); [| congruence].
  apply existsb_exists. exists r. split; [exact Hr |].
  apply existsb_exists. exists v. auto.
Qed.

Lemma DataFrame_total (data : list fields) :
  float_sized data -> DataFrame data = Ok data.
Proof.
  intros H. unfold DataFrame.
  destruct (existsb _ data) eqn:E; [| reflexivity].
  apply existsb_exists in E. destruct E as (r & Hr & E).
  apply existsb_exists in E. destruct E as (v & Hv & E).
  rewrite (H r v Hr Hv) in E. discriminate.
Qed.

Lemma convert_row_cells (r : fields) (s : series) :
  convert_row r = Ok s ->
  forall c f, sget c (values s) = Some f ->
              astype_float (cell r c) = Ok f.
Proof.
  unfold convert_row. intros H.
  apply bind_ok in H. destruct H as (vs & Hvs & H).
  injection H as <-. cbn [values].
  apply traverse_ok in Hvs.
  induction Hvs as [| c0 y cs ys Hy _ IH]; intros c f Hget; cbn in Hget.
  - discriminate.
  - apply bind_ok in Hy. destruct Hy as (f0 & Hf0 & Hy).
    injection Hy as <-. unfold sget in Hget. cbn in Hget.
    destruct (String.eqb_spec c c0) as [-> | _].
    + injection Hget as <-. exact Hf0.
    + apply IH. exact Hget.
Qed.

Lemma float_sized_frame (data : list fields) :
  DataFrame data = Ok data -> float_sized data.
Proof. intros H. exact (proj2 (@DataFrame_ok data data H)). Qed.

Lemma build_frame_inv (data : list fields) (df : list series) :
  build_frame data = Ok df ->
  DataFrame data = Ok data
  /\ forallb (has_column data) ("date_heure" :: value_columns) = true
  /\ traverse convert_row data = Ok df.
Proof.
  unfold build_frame. intros H.
  destruct (DataFrame_cases data) as [E | E]; rewrite E in H;
    cbn [bind] in H; [| discriminate].
  split; [exact E |].
  destruct (forallb _ _); [auto | discriminate].
Qed.

Lemma build_frame_rows (data : list fields) (df : list series) :
  build_frame data = Ok df ->
  Forall2 (fun r s => convert_row r = Ok s) data df.
Proof.
  intros H. apply build_frame_inv in H. destruct H as (_ & _ & H).
  revert H. apply traverse_ok.
Qed.

Lemma build_frame_shaped (data : list fields) (df : list series) :
  build_frame data = Ok df -> Forall shaped df.
Proof.
  intros H. apply build_frame_rows in H.
  induction H as [| r s rs ss Hrs _ IH]; constructor.
  - exact (convert_row_shaped r Hrs).
  - exact IH.
Qed.

(** The two dictionaries of a converted row, written out. *)
Lemma shaped_row (s : series) :
  shaped s ->
  exists nuc cha gaz fio eol sol bio fil lacs turb pomp,
    values s =
      [ ("nucleaire", nuc); ("charbon", cha); ("gaz", gaz); ("fioul", fio);
        ("eolien", eol); ("solaire", sol); ("bioenergies", bio);
        ("hydraulique_fil_eau_eclusee", fil); ("hydraulique_lacs", lacs);
        ("hydraulique_step_turbinage", turb); ("pompage", pomp) ]
    /\ build_production s =
         Ok [ ("nuclear", nuc); ("coal", cha); ("gas", gaz); ("oil", fio);
              ("wind", eol); ("solar", sol); ("biomass", bio);
              ("hydro", add lacs fil) ]
    /\ build_storage s =
         Ok [ ("hydro", add (mul pomp (of_Z (-1))) (mul turb (of_Z (-1)))) ].
Proof.
  destruct s as [d vs]. unfold shaped. cbn [values]. intros H.
  do 11 (destruct vs as [| [? ?] vs]; [discriminate H |]).
  destruct vs; [| discriminate H].
  cbn in H. injection H as -> -> -> -> -> -> -> -> -> -> ->.
  do 11 eexists. repeat split.
Qed.



Lemma row_step_shaped (zone_key : string) (dps : list datapoint)
    (s : series) :
  shaped s ->
  exists prod sto,
    build_production s = Ok prod /\ build_storage s = Ok sto
    /\ row_step zone_key dps s =
        if passes_gate prod
        then let! dt := orelse (arrow_get (date_heure s)) ParserError in
             Ok (dps ++ [mk_datapoint zone_key dt prod sto
                                      "opendata.reseaux-energies.fr"])%list
        else Ok dps.
Proof.
  intros Hs.
  destruct (shaped_row Hs)
    as (nuc & cha & gaz & fio & eol & sol & bio & fil & lacs & turb & pomp
        & _ & Hp & Hst).
  do 2 eexists. split; [exact Hp |]. split; [exact Hst |].
  unfold row_step. rewrite Hp, Hst. cbn [bind].
  destruct (passes_gate _); reflexivity.
Qed.

Lemma row_step_suppressed (zone_key : string) (dps : list datapoint)
    (s : series) :
  shaped s -> passing s = false -> row_step zone_key dps s = Ok dps.
Proof.
  intros Hs Hp.
  destruct (row_step_shaped zone_key dps Hs) as (prod & sto & Eprod & _ & ->).
  unfold passing in Hp. rewrite Eprod in Hp. rewrite Hp. reflexivity.
Qed.

Lemma rows_loop_ok (zone_key : string) (df : list series) :
  Forall shaped df ->
  forall dps out,
    for_each (row_step zone_key) df dps = Ok out ->
    exists recs,
      out = (dps ++ recs)%list
      /\ Forall2 (emitted zone_key) (filter passing df) recs.
Proof.
  induction 1 as [| s df Hs _ IH]; intros dps out Hloop; cbn in Hloop.
  - injection Hloop as <-. exists []. rewrite app_nil_r. split; constructor.
  - apply bind_ok in Hloop. destruct Hloop as (dps' & Hstep & Hloop).
    destruct (row_step_shaped zone_key dps Hs)
      as (prod & sto & Eprod & Esto & Estep).
    rewrite Estep in Hstep. clear Estep.
    destruct (IH _ _ Hloop) as (recs & -> & Hrecs).
    cbn [filter]. unfold passing at 1. rewrite Eprod.
    destruct (passes_gate prod).
    + apply bind_ok in Hstep. destruct Hstep as (dt & Hdt & Hstep).
      injection Hstep as <-.
      destruct (arrow_get (date_heure s)) as [dt' |] eqn:Edt;
        [| discriminate Hdt].
      injection Hdt as ->.
      eexists (_ :: recs). rewrite <- app_assoc. split; [reflexivity |].
      constructor; [| exact Hrecs].
      unfold emitted. cbn. auto.
    + injection Hstep as <-. exists recs. auto.
Qed.

Lemma rows_loop_total (zone_key : string) (df : list series) :
  Forall shaped df ->
  (forall s, In s df -> passing s = true ->
             arrow_get (date_heure s) <> None) ->
  forall dps, exists out, for_each (row_step zone_key) df dps = Ok out.
Proof.
  induction 1 as [| s df Hs _ IH]; intros Hdates dps; cbn.
  - eauto.
  - destruct (row_step_shaped zone_key dps Hs)
      as (prod & sto & Eprod & _ & ->).
    assert (Hrest : forall s', In s' df -> passing s' = true ->
                               arrow_get (date_heure s') <> None)
      by (intros s' Hin; apply Hdates; right; exact Hin).
    destruct (passes_gate prod) eqn:Eg.
    + specialize (Hdates s (or_introl eq_refl)).
      unfold passing in Hdates. rewrite Eprod in Hdates.
      destruct (arrow_get (date_heure s)) as [dt |];
        [| exfalso; exact (Hdates Eg eq_refl)].
      cbn. apply IH, Hrest.
    + cbn. apply IH, Hrest.
Qed.

(** The gate in words: some value of the mapping is present (not NaN)
    and truthy. *)
Lemma passes_gate_iff (production : dict string float) :
  passes_gate production = true <->
  exists k v, In (k, v) production /\ isnan v = false /\ truthy v = true.
Proof.
  unfold passes_gate, dict_values. rewrite existsb_exists. split.
  - intros (v & Hin & Hv). apply in_map_iff in Hin.
    destruct Hin as ([k v'] & <- & Hin). exists k, v'. cbn in *.
    unfold is_not_nan_and_truthy in Hv.
    destruct (isnan v'); [discriminate | auto].
  - intros (k & v & Hin & Hn & Ht). exists v. split.
    + apply in_map_iff. exists (k, v). auto.
    + unfold is_not_nan_and_truthy. rewrite Hn. exact Ht.
Qed.

(** The negation: every value is NaN or falsy. *)
Lemma fails_gate_iff (production : dict string float) :
  passes_gate production = false <->
  forall k v, In (k, v) production -> isnan v = true \/ truthy v = false.
Proof.
  split.
  - intros Hg k v Hin.
    destruct (isnan v) eqn:En; [auto |].
    destruct (truthy v) eqn:Et; [| auto].
    assert (passes_gate production = true)
      by (apply passes_gate_iff; eauto).
    congruence.
  - intros Hall. destruct (passes_gate production) eqn:Eg; [| reflexivity].
    apply passes_gate_iff in Eg. destruct Eg as (k & v & Hin & Hn & Ht).
    destruct (Hall k v Hin); congruence.
Qed.

Lemma Forall2_weaken_In {X Y : Type} (P Q : X -> Y -> Prop)
    (xs : list X) (ys : list Y) :
  (forall x y, In x xs -> P x y -> Q x y) ->
  Forall2 P xs ys -> Forall2 Q xs ys.
Proof.
  intros HPQ H. induction H as [| x y xs ys Hxy _ IH]; constructor.
  - apply HPQ; [left; reflexivity | exact Hxy].
  - apply IH. intros x' y' Hin. apply HPQ. right. exact Hin.
Qed.

Lemma fetch_production_frame (zone_key : string) (data : list fields)
    (df : list series) :
  build_frame data = Ok df ->
  fetch_production zone_key data = for_each (row_step zone_key) df [].
Proof. unfold fetch_production. intros ->. reflexivity. Qed.

Lemma fetch_production_inv (zone_key : string) (data : list fields)
    (out : list datapoint) :
  fetch_production zone_key data = Ok out ->
  exists df,
    build_frame data = Ok df
    /\ Forall2 (emitted zone_key) (filter passing df) out.
Proof.
  unfold fetch_production. intros H.
  apply bind_ok in H. destruct H as (df & Hdf & Hloop).
  exists df. split; [exact Hdf |].
  destruct (rows_loop_ok zone_key (build_frame_shaped _ Hdf) _ Hloop)
    as (recs & -> & Hrecs).
  exact Hrecs.
Qed.

Lemma existsb_ext_gate (vs : list float) :
  existsb is_not_nan_and_truthy vs = existsb present_and_truthy vs.
Proof.
  induction vs as [| v vs IH]; cbn; [reflexivity |].
  rewrite IH. unfold is_not_nan_and_truthy, present_and_truthy.
  destruct (isnan v); reflexivity.
Qed.

(** On a converted row the two dictionaries and the gate are functions
    of the columns. *)
Lemma shaped_technology (s : series) :
  shaped s ->
  build_production s = Ok (technology_values s)
  /\ build_storage s =
       Ok [ ("hydro",
             add (mul (column s "pompage") (of_Z (-1)))
                 (mul (column s "hydraulique_step_turbinage") (of_Z (-1)))) ]
  /\ passing s = has_technology_value s
  /\ forall c, In c upstream_columns ->
               sget c (values s) = Some (column s c).
Proof.
  intros Hs.
  destruct (shaped_row Hs)
    as (nuc & cha & gaz & fio & eol & sol & bio & fil & lacs & turb & pomp
        & Hv & Hp & Hst).
  assert (Hcol : forall c, In c upstream_columns ->
                           sget c (values s) = Some (column s c)).
  { intros c Hc. unfold column. rewrite Hv.
    repeat (destruct Hc as [<- | Hc]; [reflexivity |]). destruct Hc. }
  assert (Htech : technology_values s =
                    [ ("nuclear", nuc); ("coal", cha); ("gas", gaz);
                      ("oil", fio); ("wind", eol); ("solar", sol);
                      ("biomass", bio); ("hydro", add lacs fil) ])
    by (unfold technology_values, column; rewrite Hv; reflexivity).
  split; [rewrite Htech; exact Hp |]. split.
  - rewrite Hst. unfold column. rewrite Hv. reflexivity.
  - split; [| exact Hcol].
    unfold passing, has_technology_value. rewrite Hp, Htech.
    unfold passes_gate. apply existsb_ext_gate.
Qed.

Lemma filter_passing (df : list series) :
  Forall shaped df -> filter passing df = filter has_technology_value df.
Proof.
  intros H. apply filter_ext_in. intros s Hs.
  rewrite Forall_forall in H.
  exact (proj1 (proj2 (proj2 (shaped_technology (H s Hs))))).
Qed.

(** C1: when the payload converts and the dates of the rows to emit
    parse, [fetch_production] returns one record for each row in which
    one of the eight technology values, read off the columns of the row
    (the seven mapped columns and [hydraulique_lacs +
    hydraulique_fil_eau_eclusee]), is present (not NaN) and truthy, in
    the order of the rows.  The record's [production] holds these eight
    values, [hydro] being the sum, and its [storage.hydro] is
    [-(pompage + hydraulique_step_turbinage)], the two being equal as
    floats are ([same]: Python's [==], NaN with NaN). *)
Theorem passing_rows_emitted_in_order (zone_key : string)
    (data : list fields) (df : list series) :
  build_frame data = Ok df ->
  (forall s, In s df -> has_technology_value s = true ->
             arrow_get (date_heure s) <> None) ->
  (forall s, In s df ->
             valid (column s "pompage") = true
             /\ valid (column s "hydraulique_step_turbinage") = true) ->
  exists out,
    fetch_production zone_key data = Ok out
    /\ Forall2
         (fun row s =>
            date_heure s = cell row "date_heure"
            /\ forall c, In c upstream_columns ->
                         astype_float (cell row c) = Ok (column s c))
         data df
    /\ Forall2
         (fun s r =>
            zoneKey r = zone_key
            /\ arrow_get (date_heure s) = Some (datetime r)
            /\ source r = "opendata.reseaux-energies.fr"
            /\ production r = technology_values s
            /\ exists sto,
                 storage r = [("hydro", sto)]
                 /\ same sto
                         (opp (add (column s "pompage")
                                   (column s "hydraulique_step_turbinage")))
                    = true)
         (filter has_technology_value df) out.
Proof.
  intros Hdf Hdates Hvalid.
  pose proof (build_frame_shaped _ Hdf) as Hshaped.
  assert (Hdates' : forall s, In s df -> passing s = true ->
                              arrow_get (date_heure s) <> None).
  { intros s Hin Hpass. apply (Hdates s Hin).
    rewrite Forall_forall in Hshaped.
    rewrite <- (proj1 (proj2 (proj2 (shaped_technology (Hshaped s Hin))))).
    exact Hpass. }
  destruct (rows_loop_total zone_key Hshaped Hdates' []) as (out & Hout).
  exists out. rewrite (fetch_production_frame zone_key _ Hdf).
  split; [exact Hout |]. split.
  - pose proof (build_frame_rows _ Hdf) as Hrows.
    revert Hrows. apply Forall2_weaken_In.
    intros row s _ Hconv. split.
    + unfold convert_row in Hconv. apply bind_ok in Hconv.
      destruct Hconv as (vs & _ & Hconv). injection Hconv as <-.
      reflexivity.
    + intros c Hc. apply (convert_row_cells _ Hconv).
      apply (shaped_technology (convert_row_shaped _ Hconv)), Hc.
  - destruct (rows_loop_ok zone_key Hshaped _ Hout) as (recs & -> & Hrecs).
    cbn [app]. rewrite <- (filter_passing Hshaped).
    revert Hrecs. apply Forall2_weaken_In.
    intros s r Hin (Hz & Hd & Hp & Hst & Hsrc).
    apply filter_In in Hin. destruct Hin as [Hin _].
    rewrite Forall_forall in Hshaped.
    destruct (shaped_technology (Hshaped s Hin)) as (Hp' & Hst' & _ & _).
    rewrite Hp' in Hp. rewrite Hst' in Hst.
    injection Hp as Hp. injection Hst as Hst.
    split; [exact Hz |]. split; [exact Hd |]. split; [exact Hsrc |].
    split; [symmetry; exact Hp |].
    eexists. split; [symmetry; exact Hst |].
    destruct (Hvalid s Hin) as [Vp Vt].
    apply storage_sum; assumption.
Qed.

(** C2: a row whose production mapping holds only values that are NaN
    or falsy leaves the list of records as it is, so the call returns
    what the other rows alone give. *)
Theorem absent_row_discarded (zone_key : string) (data : list fields)
    (pre post : list series) (s : series) (prod : dict string float) :
  build_frame data = Ok (pre ++ s :: post)%list ->
  build_production s = Ok prod ->
  (forall k v, In (k, v) prod -> isnan v = true \/ truthy v = false) ->
  (forall dps, row_step zone_key dps s = Ok dps)
  /\ fetch_production zone_key data
     = for_each (row_step zone_key) (pre ++ post)%list [].
Proof.
  intros Hdf Hprod Habsent.
  assert (Hs : shaped s).
  { pose proof (build_frame_shaped _ Hdf) as H.
    rewrite Forall_forall in H. apply H, in_elt. }
  assert (Hstep : forall dps, row_step zone_key dps s = Ok dps).
  { intros dps. apply row_step_suppressed; [exact Hs |].
    unfold passing. rewrite Hprod. apply fails_gate_iff, Habsent. }
  split; [exact Hstep |].
  rewrite (fetch_production_frame zone_key _ Hdf).
  apply for_each_skip, Hstep.
Qed.

(** C5: a payload without one of the required columns, or with a value
    column cell that [astype(float)] cannot convert, makes the call
    raise; no list of records is returned. *)
Theorem malformed_payload_rejected (zone_key : string)
    (data : list fields) :
  (exists c, In c ("date_heure" :: value_columns)
             /\ has_column data c = false)
  \/ (exists row c e, In row data /\ In c value_columns
                      /\ astype_float (cell row c) = Raise e) ->
  exists e, fetch_production zone_key data = Raise e.
Proof.
  unfold fetch_production, build_frame.
  destruct (DataFrame_cases data) as [-> | ->]; cbn [bind];
    [| intros _; exists OverflowError; reflexivity].
  intros [(c & Hc & Hmissing) | (row & c & e & Hrow & Hc & Hbad)].
  - destruct (forallb _ _) eqn:Eall.
    + rewrite forallb_forall in Eall. rewrite (Eall c Hc) in Hmissing.
      discriminate.
    + exists KeyError. reflexivity.
  - destruct (forallb _ _); [| exists KeyError; reflexivity].
    assert (Hconv : exists e', convert_row row = Raise e').
    { unfold convert_row.
      destruct (traverse_raise
                  (fun c => let! f := astype_float (cell row c) in Ok (c, f))
                  value_columns c (e := e) Hc) as (e' & ->).
      - rewrite Hbad. reflexivity.
      - exists e'. reflexivity. }
    destruct Hconv as (e' & Hconv).
    destruct (traverse_raise convert_row data row Hrow Hconv) as (e'' & ->).
    exists e''. reflexivity.
Qed.


Lemma with_storage_shaped (s : series) (pomp turb : float) :
  shaped s -> shaped (with_storage s pomp turb).
Proof.
  intros Hs.
  destruct (shaped_row Hs)
    as (nuc & cha & gaz & fio & eol & sol & bio & fil & lacs & t & p
        & Hv & _ & _).
  unfold shaped, with_storage. cbn [values]. rewrite Hv. reflexivity.
Qed.

Lemma with_storage_production (s : series) (pomp turb : float) :
  shaped s ->
  build_production (with_storage s pomp turb) = build_production s.
Proof.
  intros Hs.
  destruct (shaped_row Hs)
    as (nuc & cha & gaz & fio & eol & sol & bio & fil & lacs & t & p
        & Hv & Hp & _).
  rewrite Hp. unfold build_production, loc, with_storage. cbn [values].
  rewrite Hv. reflexivity.
Qed.

(** C8: the gate does not read the storage columns.  A converted row
    whose production mapping holds only values that are NaN or falsy is
    dropped, and so is the row with any other values, nonzero ones
    included, for [pompage] and [hydraulique_step_turbinage]: its
    production mapping is the same. *)
Theorem storage_ignored_by_gate (zone_key : string)
    (dps : list datapoint) (s : series) (prod : dict string float)
    (pomp turb : float) :
  shaped s ->
  build_production s = Ok prod ->
  (forall k v, In (k, v) prod -> isnan v = true \/ truthy v = false) ->
  row_step zone_key dps s = Ok dps
  /\ loc (with_storage s pomp turb) "pompage" = Ok pomp
  /\ loc (with_storage s pomp turb) "hydraulique_step_turbinage" = Ok turb
  /\ build_production (with_storage s pomp turb) = Ok prod
  /\ row_step zone_key dps (with_storage s pomp turb) = Ok dps.
Proof.
  intros Hs Hprod Habsent.
  assert (Hp : build_production (with_storage s pomp turb) = Ok prod)
    by (rewrite with_storage_production; assumption).
  destruct (shaped_row Hs)
    as (nuc & cha & gaz & fio & eol & sol & bio & fil & lacs & t & p
        & Hv & _ & _).
  repeat split.
  - apply row_step_suppressed; [exact Hs |].
    unfold passing. rewrite Hprod. apply fails_gate_iff, Habsent.
  - unfold loc, with_storage. cbn [values]. rewrite Hv. reflexivity.
  - unfold loc, with_storage. cbn [values]. rewrite Hv. reflexivity.
  - exact Hp.
  - apply row_step_suppressed; [apply with_storage_shaped, Hs |].
    unfold passing. rewrite Hp. apply fails_gate_iff, Habsent.
Qed.

Lemma isnan_true (x : float) : isnan x = true -> x = nan.
Proof.
  destruct x; cbn; intros H;
    [discriminate .. | reflexivity | discriminate].
Qed.

(** C9: when a hydro component of a converted row is NaN, so is
    [production.hydro], which the gate then does not count; if moreover
    the seven mapped values are NaN or falsy, the row is dropped, even
    though the other hydro component may be a nonzero number. *)
Theorem nan_hydro_component (zone_key : string) (dps : list datapoint)
    (s : series) (lacs fil : float) :
  shaped s ->
  loc s "hydraulique_lacs" = Ok lacs ->
  loc s "hydraulique_fil_eau_eclusee" = Ok fil ->
  isnan lacs = true \/ isnan fil = true ->
  exists prod,
    build_production s = Ok prod
    /\ sget "hydro" prod = Some nan
    /\ is_not_nan_and_truthy nan = false
    /\ ((forall k v, In k (dict_keys MAP_GENERATION) -> loc s k = Ok v ->
                     isnan v = true \/ truthy v = false) ->
        row_step zone_key dps s = Ok dps).
Proof.
  intros Hs Hlacs Hfil Hnan.
  destruct (shaped_row Hs)
    as (nuc & cha & gaz & fio & eol & sol & bio & fil' & lacs' & t & p
        & Hv & Hp & _).
  unfold loc in Hlacs, Hfil. rewrite Hv in Hlacs, Hfil.
  injection Hlacs as ->. injection Hfil as ->.
  assert (Hsum : add lacs fil = nan).
  { destruct Hnan as [H | H]; apply isnan_true in H; subst.
    - apply add_nan_l.
    - apply add_nan_r. }
  rewrite Hsum in Hp.
  eexists. split; [exact Hp |]. split; [reflexivity |].
  split; [reflexivity |].
  intros Hmapped. apply row_step_suppressed; [exact Hs |].
  unfold passing. rewrite Hp. apply fails_gate_iff.
  assert (Hloc : forall k v, In k (dict_keys MAP_GENERATION) ->
                             sget k (values s) = Some v ->
                             isnan v = true \/ truthy v = false).
  { intros k v Hk Hget. apply (Hmapped k v Hk). unfold loc.
    rewrite Hget. reflexivity. }
  rewrite Hv in Hloc.
  intros k v Hin.
  destruct Hin as [Hin | Hin];
    [injection Hin as <- <-; apply (Hloc "nucleaire"); cbn; tauto |].
  destruct Hin as [Hin | Hin];
    [injection Hin as <- <-; apply (Hloc "charbon"); cbn; tauto |].
  destruct Hin as [Hin | Hin];
    [injection Hin as <- <-; apply (Hloc "gaz"); cbn; tauto |].
  destruct Hin as [Hin | Hin];
    [injection Hin as <- <-; apply (Hloc "fioul"); cbn; tauto |].
  destruct Hin as [Hin | Hin];
    [injection Hin as <- <-; apply (Hloc "eolien"); cbn; tauto |].
  destruct Hin as [Hin | Hin];
    [injection Hin as <- <-; apply (Hloc "solaire"); cbn; tauto |].
  destruct Hin as [Hin | Hin];
    [injection Hin as <- <-; apply (Hloc "bioenergies"); cbn; tauto |].
  destruct Hin as [Hin | []].
  injection Hin as <- <-. left. reflexivity.
Qed.

Lemma missing_cell_is_nan (r : fields) (c : string) (f : float) :
  sget c r = None \/ sget c r = Some JNull ->
  astype_float (cell r c) = Ok f -> f = nan.
Proof.
  unfold cell. intros [-> | ->]; cbn; intros H; injection H as <-;
    reflexivity.
Qed.

(** C10: the production mapping of every record returned has the eight
    keys nuclear, coal, gas, oil, wind, solar, biomass and hydro, and no
    other; a field that a row lacks, or holds as null, gives NaN under
    the key it feeds in the mapping built for the row. *)
Theorem production_has_eight_keys (zone_key : string)
    (data : list fields) (out : list datapoint) :
  fetch_production zone_key data = Ok out ->
  Forall (fun r => dict_keys (production r) =
                     [ "nuclear"; "coal"; "gas"; "oil"; "wind"; "solar";
                       "biomass"; "hydro" ]) out
  /\ exists df,
       build_frame data = Ok df
       /\ Forall2 (fun s r => build_production s = Ok (production r))
                  (filter passing df) out
       /\ Forall2
            (fun row s =>
               forall key name,
                 In (key, name) feeds ->
                 sget key row = None \/ sget key row = Some JNull ->
                 exists prod,
                   build_production s = Ok prod
                   /\ sget name prod = Some nan)
            data df.
Proof.
  intros Hout.
  destruct (fetch_production_inv _ _ Hout) as (df & Hdf & Hrecs).
  pose proof (build_frame_shaped _ Hdf) as Hshaped.
  rewrite Forall_forall in Hshaped.
  split; [| exists df; split; [exact Hdf |]; split].
  - assert (Hall : forall s r, In s (filter passing df) ->
                               emitted zone_key s r ->
                               dict_keys (production r) =
                                 [ "nuclear"; "coal"; "gas"; "oil"; "wind";
                                   "solar"; "biomass"; "hydro" ]).
    { intros s r Hin (_ & _ & Hp & _).
      apply filter_In in Hin. destruct Hin as [Hin _].
      destruct (shaped_row (Hshaped s Hin))
        as (nuc & cha & gaz & fio & eol & sol & bio & fil & lacs & t & p
            & _ & Hp' & _).
      rewrite Hp' in Hp. injection Hp as <-. reflexivity. }
    clear Hout. induction Hrecs as [| s r ss rs Hsr _ IH]; constructor.
    + apply (Hall s r); [left; reflexivity | exact Hsr].
    + apply IH. intros s' r' Hin. apply Hall. right. exact Hin.
  - revert Hrecs. apply Forall2_weaken_In.
    intros s r _ (_ & _ & Hp & _). exact Hp.
  - pose proof (build_frame_rows _ Hdf) as Hrows.
    clear Hout Hrecs Hdf.
    induction Hrows as [| row s rows ss Hconv _ IH]; constructor.
    + intros key name Hkey Hmissing.
      destruct (shaped_row (Hshaped s (or_introl eq_refl)))
        as (nuc & cha & gaz & fio & eol & sol & bio & fil & lacs & t & p
            & Hv & Hp & _).
      exists [ ("nuclear", nuc); ("coal", cha); ("gas", gaz); ("oil", fio);
               ("wind", eol); ("solar", sol); ("biomass", bio);
               ("hydro", add lacs fil) ].
      split; [exact Hp |].
      pose proof (convert_row_cells _ Hconv) as Hcells.
      rewrite Hv in Hcells.
      assert (Hnan : forall f, sget key (values s) = Some f -> f = nan).
      { intros f Hf. apply (missing_cell_is_nan _ _ Hmissing).
        apply (convert_row_cells _ Hconv), Hf. }
      rewrite Hv in Hnan. clear Hcells.
      repeat (destruct Hkey as [Hkey | Hkey];
              [injection Hkey as <- <-; unfold sget; cbn; f_equal;
               first [ apply Hnan; reflexivity
                     | rewrite (Hnan lacs eq_refl); apply add_nan_l
                     | rewrite (Hnan fil eq_refl); apply add_nan_r ] |]).
      destruct Hkey.
    + apply IH. intros s' Hs'. apply Hshaped. right. exact Hs'.
Qed.

End ProductionFacts.

Section ProductionInstances.

Import Production Samples.

Lemma passing_rows_emitted_in_order_witness :
  exists out,
    fetch_production (B := Plain.builtins) "FR" payload = Ok out
    /\ Forall2 (fun s r => production r = technology_values s)
               (filter has_technology_value frame) out
    /\ List.length out = 2%nat.
Proof.
  destruct (@passing_rows_emitted_in_order Plain.builtins "FR"
              payload frame) as (out & Hout & _ & Hrows).
  - reflexivity.
  - intros s Hin _.
    repeat (destruct Hin as [<- | Hin]; [discriminate |]). destruct Hin.
  - intros s Hin.
    repeat (destruct Hin as [<- | Hin]; [split; reflexivity |]).
    destruct Hin.
  - exists out. split; [exact Hout |]. split.
    + revert Hrows. apply Forall2_weaken_In.
      intros s r _ (_ & _ & _ & Hp & _). exact Hp.
    + apply Forall2_length in Hrows. rewrite <- Hrows. reflexivity.
Defined.

Lemma absent_row_discarded_witness :
  fetch_production (B := Plain.builtins) "FR" payload
  = for_each (row_step (B := Plain.builtins) "FR")
             (firstn 1 frame ++ skipn 2 frame)%list [].
Proof.
  refine (proj2 (@absent_row_discarded Plain.builtins "FR" payload
                   (firstn 1 frame) (skipn 2 frame)
                   (nth 1 frame (mk_series JNull []))
                   [ ("nuclear", zero); ("coal", nan);
                     ("gas", nan); ("oil", zero); ("wind", zero);
                     ("solar", zero); ("biomass", zero);
                     ("hydro", zero) ] _ _ _)).
  - reflexivity.
  - reflexivity.
  - intros k v Hin.
    repeat (destruct Hin as [Hin | Hin];
            [injection Hin as <- <-; cbn; auto |]).
    destruct Hin.
Defined.

Lemma malformed_payload_rejected_witness :
  exists e,
    fetch_production (B := Plain.builtins) "FR" [row_a; row_garbled]
    = Raise e.
Proof.
  apply (@malformed_payload_rejected Plain.builtins).
  right. exists row_garbled, "charbon", ValueError.
  split; [cbn; auto |]. split; [cbn; auto | reflexivity].
Defined.

Lemma storage_ignored_by_gate_witness :
  row_step (B := Plain.builtins) "FR" []
           (with_storage (nth 1 frame blank) (of_Z 800) (of_Z 120))
  = Ok [].
Proof.
  refine (proj2 (proj2 (proj2 (proj2
    (@storage_ignored_by_gate Plain.builtins "FR" [] (nth 1 frame blank)
       [ ("nuclear", zero); ("coal", nan); ("gas", nan); ("oil", zero);
         ("wind", zero); ("solar", zero); ("biomass", zero);
         ("hydro", zero) ]
       (of_Z 800) (of_Z 120) _ _ _))))).
  - reflexivity.
  - reflexivity.
  - intros k v Hin.
    repeat (destruct Hin as [Hin | Hin];
            [injection Hin as <- <-; cbn; auto |]).
    destruct Hin.
Defined.

Lemma nan_hydro_component_witness :
  exists prod,
    build_production (nth 3 frame blank) = Ok prod
    /\ sget "hydro" prod = Some nan
    /\ row_step (B := Plain.builtins) "FR" [] (nth 3 frame blank) = Ok [].
Proof.
  destruct (@nan_hydro_component Plain.builtins "FR" [] (nth 3 frame blank)
              (of_Z 5) nan) as (prod & Hp & Hh & _ & Hstep).
  - reflexivity.
  - reflexivity.
  - reflexivity.
  - right. reflexivity.
  - exists prod. split; [exact Hp |]. split; [exact Hh |].
    apply Hstep. intros k v Hk.
    repeat (destruct Hk as [<- | Hk];
            [intros Hv; injection Hv as <-; right; reflexivity |]).
    destruct Hk.
Defined.

Lemma production_has_eight_keys_witness :
  Forall (fun r => dict_keys (production r) =
                     [ "nuclear"; "coal"; "gas"; "oil"; "wind"; "solar";
                       "biomass"; "hydro" ]) records.
Proof.
  apply (@production_has_eight_keys Plain.builtins "FR" payload records).
  reflexivity.
Defined.

(** Scenario A of the specification: one record, hydro 15, gas NaN; the
    storage is [0 * -1 + 0 * -1], the negative zero. *)
Example scenario_a :
  fetch_production (B := Plain.builtins) "FR" [row_a]
  = Ok [ mk_datapoint "FR" (mk_instant 1609459200000000 "UTC")
           [ ("nuclear", of_Z 300); ("coal", zero); ("gas", nan);
             ("oil", zero); ("wind", of_Z 50); ("solar", zero);
             ("biomass", zero); ("hydro", of_Z 15) ]
           [ ("hydro", S754_zero true) ]
           "opendata.reseaux-energies.fr" ].
Proof. reflexivity. Qed.

(** Scenario B: zeros and missing values only, no record. *)
Example scenario_b :
  fetch_production (B := Plain.builtins) "FR" [row_b] = Ok [].
Proof. reflexivity. Qed.

(** An empty payload has no columns. *)
Example empty_payload :
  fetch_production (B := Plain.builtins) "FR" [] = Raise KeyError.
Proof. reflexivity. Qed.

End ProductionInstances.

(** ** The price document *)

Section PriceFacts.

Import Price.
Context {B : Builtins}.

Lemma upsert_coherent (zone_key : string) (datas : dict instant datum)
    (e : instant * float) :
  coherent zone_key datas -> coherent zone_key (upsert zone_key datas e).
Proof.
  unfold coherent, upsert. rewrite !Forall_forall.
  intros Hd [k d] Hin.
  apply iset_In in Hin.
  destruct Hin as [[-> ->] | Hin]; [| exact (Hd _ Hin)].
  cbn. eauto.
Qed.

Lemma fold_upsert_coherent (zone_key : string) (es : list (instant * float))
    (datas : dict instant datum) :
  coherent zone_key datas ->
  coherent zone_key (fold_left (upsert zone_key) es datas).
Proof.
  revert datas. induction es as [| e es IH]; intros datas Hd; cbn.
  - exact Hd.
  - apply IH, upsert_coherent, Hd.
Qed.

(** On a coherent mapping, the body of the inner loop stores the entry of
    the value, if it has one. *)
Lemma value_step_entries (zone_key : string) (start_date : instant)
    (datas : dict instant datum) (value : element) :
  coherent zone_key datas ->
  value_step zone_key start_date datas value
  = let! es := value_entries start_date value in
    Ok (fold_left (upsert zone_key) es datas).
Proof.
  intros Hd. unfold value_step, value_entries.
  destruct (is_sentinel value); [reflexivity |].
  destruct (sget "periode" (attrib value)) as [periode |]; [| reflexivity].
  cbn [orelse bind].
  destruct (py_int periode) as [period |]; [| reflexivity].
  cbn [orelse bind].
  destruct (replace_hours start_date period) as [dt | e]; [| reflexivity].
  cbn [bind].
  destruct (imem dt datas) eqn:Emem; cbn [negb].
  - unfold imem, dict_mem in Emem. fold (iget dt datas) in Emem.
    destruct (iget dt datas) as [data |] eqn:Eget; [| discriminate].
    cbn [orelse bind].
    destruct (float_of_text (text value)) as [p | e]; [| reflexivity].
    cbn [bind fold_left]. unfold upsert. cbn [fst snd].
    apply iget_In in Eget.
    unfold coherent in Hd. rewrite Forall_forall in Hd.
    destruct (Hd _ Eget) as (p0 & Hdata). cbn in Hdata. subst data.
    reflexivity.
  - rewrite iget_iset_same.
    cbn [orelse bind].
    destruct (float_of_text (text value)) as [p | e]; [| reflexivity].
    cbn [bind fold_left]. unfold upsert. cbn [fst snd].
    rewrite iset_iset. reflexivity.
Qed.

(** A loop whose body stores the entries of its element stores, in the
    end, the entries of all the elements. *)
Lemma for_each_entries (A : Type) (zone_key : string)
    (body : dict instant datum -> A -> result (dict instant datum))
    (f : A -> result (list (instant * float))) (xs : list A) :
  (forall datas x,
      coherent zone_key datas ->
      body datas x = let! es := f x in
                     Ok (fold_left (upsert zone_key) es datas)) ->
  forall datas,
    coherent zone_key datas ->
    for_each body xs datas
    = let! ess := traverse f xs in
      Ok (fold_left (upsert zone_key) (List.concat ess) datas).
Proof.
  intros Hbody. induction xs as [| x xs IH]; intros datas Hd; cbn.
  - reflexivity.
  - rewrite (Hbody _ _ Hd).
    destruct (f x) as [es | e]; cbn [bind]; [| reflexivity].
    rewrite IH by (apply fold_upsert_coherent, Hd).
    destruct (traverse f xs) as [ess | e]; cbn [bind]; [| reflexivity].
    cbn [List.concat]. rewrite fold_left_app. reflexivity.
Qed.

Lemma item_step_entries (zone_key : string) (start_date : instant)
    (datas : dict instant datum) (item : element) :
  coherent zone_key datas ->
  item_step zone_key start_date datas item
  = let! es := item_entries zone_key start_date item in
    Ok (fold_left (upsert zone_key) es datas).
Proof.
  intros Hd. unfold item_step, item_entries.
  destruct (negb (attrib_is item "granularite" "Global")); [reflexivity |].
  destruct (negb (attrib_is item "perimetre" zone_key)); [reflexivity |].
  rewrite (@for_each_entries _ zone_key _ (value_entries start_date)
             (children item) (@value_step_entries zone_key start_date)
             datas Hd).
  destruct (traverse _ _); reflexivity.
Qed.

Lemma day_step_entries (zone_key : string) (datas : dict instant datum)
    (day : element) :
  coherent zone_key datas ->
  day_step zone_key datas day
  = let! es := day_entries zone_key day in
    Ok (fold_left (upsert zone_key) es datas).
Proof.
  intros Hd. unfold day_step, day_entries.
  destruct (negb (String.eqb (tag day) "donneesMarche")); [reflexivity |].
  destruct (start_of day) as [start_date | e]; cbn [bind]; [| reflexivity].
  rewrite (@for_each_entries _ zone_key _ (item_entries zone_key start_date)
             (children day) (@item_step_entries zone_key start_date)
             datas Hd).
  destruct (traverse _ _); reflexivity.
Qed.

(** [fetch_price] stores the usable entries in the order of the traversal,
    a later entry replacing the price of an earlier one with the same
    timestamp, and returns the stored records. *)
Lemma fetch_price_entries (zone_key : string) (obj : element) :
  fetch_price zone_key obj
  = let! es := entries zone_key obj in
    Ok (dict_values (fold_left (upsert zone_key) es [])).
Proof.
  unfold fetch_price, entries.
  rewrite (@for_each_entries _ zone_key _ (day_entries zone_key)
             (children obj) (@day_step_entries zone_key) [])
    by constructor.
  destruct (traverse _ _); reflexivity.
Qed.

Lemma fold_upsert_NoDup (zone_key : string) (es : list (instant * float))
    (datas : dict instant datum) :
  NoDup (dict_keys datas) ->
  NoDup (dict_keys (fold_left (upsert zone_key) es datas)).
Proof.
  revert datas. induction es as [| e es IH]; intros datas Hd; cbn.
  - exact Hd.
  - apply IH. unfold upsert. apply iset_keys_NoDup, Hd.
Qed.

(** A stored record comes from the initial mapping or from an entry. *)
Lemma fold_upsert_In (zone_key : string) (es : list (instant * float))
    (datas : dict instant datum) (k : instant) (d : datum) :
  In (k, d) (fold_left (upsert zone_key) es datas) ->
  In (k, d) datas
  \/ exists p, In (k, p) es
               /\ d = mk_datum zone_key "EUR" k "rte-france.com" (Some p).
Proof.
  revert datas. induction es as [| [k0 p0] es IH]; intros datas Hin; cbn in Hin.
  - left. exact Hin.
  - destruct (IH _ Hin) as [Hold | (p & Hp & Hd)].
    + unfold upsert in Hold. cbn [fst snd] in Hold.
      apply iset_In in Hold. destruct Hold as [[-> ->] | Hold].
      * right. exists p0. split; [left; reflexivity | reflexivity].
      * left. exact Hold.
    + right. exists p. split; [right; exact Hp | exact Hd].
Qed.

Lemma upsert_keys_mono (zone_key : string) (datas : dict instant datum)
    (e : instant * float) (k : instant) :
  In k (dict_keys datas) -> In k (dict_keys (upsert zone_key datas e)).
Proof.
  unfold upsert. rewrite iset_keys.
  destruct (imem (fst e) datas); [auto |].
  intros H. apply in_or_app. left. exact H.
Qed.

Lemma upsert_keys_new (zone_key : string) (datas : dict instant datum)
    (e : instant * float) :
  In (fst e) (dict_keys (upsert zone_key datas e)).
Proof.
  unfold upsert. rewrite iset_keys.
  destruct (imem (fst e) datas) eqn:E.
  - apply imem_keys, E.
  - apply in_or_app. right. left. reflexivity.
Qed.

(** The timestamp of every entry is a key in the end. *)
Lemma fold_upsert_keys (zone_key : string) (es : list (instant * float))
    (datas : dict instant datum) (k : instant) :
  In k (dict_keys datas) \/ In k (map fst es) ->
  In k (dict_keys (fold_left (upsert zone_key) es datas)).
Proof.
  revert datas. induction es as [| e es IH]; intros datas H; cbn.
  - destruct H as [H | []]. exact H.
  - apply IH. destruct H as [H | [<- | H]].
    + left. apply upsert_keys_mono, H.
    + left. apply upsert_keys_new.
    + right. exact H.
Qed.

(** The records of a coherent mapping carry their keys. *)
Lemma coherent_datetimes (zone_key : string) (datas : dict instant datum) :
  coherent zone_key datas ->
  map datetime (dict_values datas) = dict_keys datas.
Proof.
  unfold coherent, dict_values, dict_keys.
  induction 1 as [| [k d] datas (p & Hd) _ IH]; cbn; [reflexivity |].
  cbn in Hd. subst d. cbn. f_equal. exact IH.
Qed.

Lemma fetch_price_inv (zone_key : string) (obj : element)
    (out : list datum) :
  fetch_price zone_key obj = Ok out ->
  exists es,
    entries zone_key obj = Ok es
    /\ out = dict_values (fold_left (upsert zone_key) es []).
Proof.
  rewrite fetch_price_entries. intros H.
  apply bind_ok in H. destruct H as (es & Hes & H).
  injection H as <-. eauto.
Qed.

Lemma for_each_map (A A' S : Type) (body : S -> A -> result S)
    (g : A' -> A) (body' : S -> A' -> result S) (xs : list A') :
  (forall s x, body s (g x) = body' s x) ->
  forall s, for_each body (map g xs) s = for_each body' xs s.
Proof.
  intros Hg. induction xs as [| x xs IH]; intros s; cbn; [reflexivity |].
  rewrite Hg. destruct (body' s x); cbn; [apply IH | reflexivity].
Qed.

Lemma values_loop_without_sentinels (zone_key : string)
    (start_date : instant) (values : list element)
    (datas : dict instant datum) :
  for_each (value_step zone_key start_date)
           (filter (fun v => negb (is_sentinel v)) values) datas
  = for_each (value_step zone_key start_date) values datas.
Proof.
  revert datas. induction values as [| v values IH]; intros datas; cbn;
    [reflexivity |].
  destruct (is_sentinel v) eqn:E; cbn.
  - unfold value_step at 2. rewrite E. cbn. apply IH.
  - destruct (value_step zone_key start_date datas v); cbn;
      [apply IH | reflexivity].
Qed.

Lemma item_step_without_sentinels (zone_key : string)
    (start_date : instant) (datas : dict instant datum) (item : element) :
  item_step zone_key start_date datas (strip_item item)
  = item_step zone_key start_date datas item.
Proof.
  destruct item as [t a x c]. unfold item_step, strip_item, attrib_is. cbn.
  rewrite values_loop_without_sentinels. reflexivity.
Qed.

Lemma day_step_without_sentinels (zone_key : string)
    (datas : dict instant datum) (day : element) :
  day_step zone_key datas (strip_day day) = day_step zone_key datas day.
Proof.
  destruct day as [t a x c]. unfold day_step, strip_day, start_of. cbn.
  destruct (negb (String.eqb t "donneesMarche")); [reflexivity |].
  destruct (let! date := orelse (sget "date" a) KeyError in _)
    as [start_date | e]; cbn; [| reflexivity].
  apply for_each_map. intros. apply item_step_without_sentinels.
Qed.

(** C3: a period-entry whose text is the sentinel leaves the mapping as
    it is, whatever it holds for the timestamp and whatever the entry's
    [periode] is; the call returns what the document without its
    sentinel entries gives. *)
Theorem sentinel_entries_ignored (zone_key : string) (start_date : instant)
    (datas : dict instant datum) (value obj : element) :
  text value = Some "ND" ->
  value_step zone_key start_date datas value = Ok datas
  /\ fetch_price zone_key (without_sentinels obj) = fetch_price zone_key obj.
Proof.
  intros Hnd. split.
  - unfold value_step, is_sentinel. rewrite Hnd. reflexivity.
  - destruct obj as [t a x c]. unfold fetch_price, without_sentinels. cbn.
    rewrite (for_each_map (day_step zone_key) strip_day (day_step zone_key));
      [reflexivity |].
    intros. apply day_step_without_sentinels.
Qed.

Lemma Forall2_In_l (X Y : Type) (P : X -> Y -> Prop) (xs : list X)
    (ys : list Y) (x : X) :
  Forall2 P xs ys -> In x xs -> exists y, In y ys /\ P x y.
Proof.
  induction 1 as [| x0 y0 xs ys H0 _ IH]; cbn; [contradiction |].
  intros [<- | Hin]; [eauto |].
  destruct (IH Hin) as (y & Hy & Hxy). eauto.
Qed.

Lemma Forall2_In_r (X Y : Type) (P : X -> Y -> Prop) (xs : list X)
    (ys : list Y) (y : Y) :
  Forall2 P xs ys -> In y ys -> exists x, In x xs /\ P x y.
Proof.
  induction 1 as [| x0 y0 xs ys H0 _ IH]; cbn; [contradiction |].
  intros [<- | Hin]; [eauto |].
  destruct (IH Hin) as (x & Hx & Hxy). eauto.
Qed.

(** The entries of a traversal are those of its elements. *)
Lemma traverse_concat_In (A E : Type) (f : A -> result (list E))
    (xs : list A) (ess : list (list E)) (e : E) :
  traverse f xs = Ok ess ->
  (In e (List.concat ess) <-> exists x es, In x xs /\ f x = Ok es /\ In e es).
Proof.
  intros H. apply traverse_ok in H. rewrite in_concat. split.
  - intros (es & Hes & He).
    destruct (Forall2_In_r _ H Hes) as (x & Hx & Hfx). eauto.
  - intros (x & es & Hx & Hfx & He).
    destruct (Forall2_In_l _ H Hx) as (es' & Hes' & Hfx').
    rewrite Hfx in Hfx'. injection Hfx' as <-. eauto.
Qed.

Lemma replace_hours_ok (start_date dt : instant) (period : Z) :
  replace_hours start_date period = Ok dt ->
  dt = mk_instant (wall start_date + period * hour) (tz start_date).
Proof.
  unfold replace_hours. destruct (_ && _); [| discriminate].
  intros H. injection H as <-. reflexivity.
Qed.

Lemma value_entries_In (start_date : instant) (value : element)
    (es : list (instant * float)) (ts : instant) (p : float) :
  value_entries start_date value = Ok es ->
  (In (ts, p) es <->
   exists t periode period,
     text value = Some t /\ t <> "ND"
     /\ sget "periode" (attrib value) = Some periode
     /\ py_int periode = Some period
     /\ ts = mk_instant (wall start_date + period * hour) (tz start_date)
     /\ py_float t = Some p).
Proof.
  unfold value_entries, is_sentinel, float_of_text. intros H. split.
  - intros Hin.
    destruct (text value) as [t |] eqn:Et.
    + destruct (String.eqb_spec t "ND") as [-> | Hne];
        [injection H as <-; destruct Hin |].
      destruct (sget "periode" (attrib value)) as [periode |] eqn:Eperiode;
        [| discriminate H].
      cbn [orelse bind] in H.
      destruct (py_int periode) as [period |] eqn:Eperiod;
        [| discriminate H].
      cbn [orelse bind] in H.
      destruct (replace_hours start_date period) as [dt | e] eqn:Edt;
        [| discriminate H].
      cbn [bind] in H.
      destruct (py_float t) as [p' |] eqn:Ep; [| discriminate H].
      cbn in H. injection H as <-. destruct Hin as [Hin | []].
      injection Hin as <- <-. apply replace_hours_ok in Edt.
      exists t, periode, period. repeat split; assumption || reflexivity.
    + destruct (sget "periode" (attrib value)) as [periode |];
        [| discriminate H].
      cbn [orelse bind] in H.
      destruct (py_int periode) as [period |]; [| discriminate H].
      cbn [orelse bind] in H.
      destruct (replace_hours start_date period); discriminate H.
  - intros (t & periode & period & Et & Hne & Eperiode & Eperiod & -> & Ep).
    rewrite Et, Eperiode in H.
    destruct (String.eqb_spec t "ND") as [-> | _]; [contradiction |].
    cbn [orelse bind] in H. rewrite Eperiod in H. cbn [orelse bind] in H.
    destruct (replace_hours start_date period) as [dt | e] eqn:Edt;
      [| discriminate H].
    cbn [bind] in H. rewrite Ep in H. cbn in H. injection H as <-.
    apply replace_hours_ok in Edt. subst dt.
    left. reflexivity.
Qed.

Lemma attrib_is_true (e : element) (k v : string) :
  attrib_is e k v = true <-> sget k (attrib e) = Some v.
Proof.
  unfold attrib_is. destruct (sget k (attrib e)) as [v' |].
  - destruct (String.eqb_spec v' v) as [-> | Hne]; split; congruence.
  - split; discriminate.
Qed.

Lemma item_entries_In (zone_key : string) (start_date : instant)
    (item : element) (es : list (instant * float)) (e : instant * float) :
  item_entries zone_key start_date item = Ok es ->
  (In e es <->
   sget "granularite" (attrib item) = Some "Global"
   /\ sget "perimetre" (attrib item) = Some zone_key
   /\ exists value es',
        In value (children item)
        /\ value_entries start_date value = Ok es' /\ In e es').
Proof.
  unfold item_entries. rewrite <- !attrib_is_true.
  destruct (attrib_is item "granularite" "Global"); cbn [negb].
  - destruct (attrib_is item "perimetre" zone_key); cbn [negb].
    + intros H. apply bind_ok in H. destruct H as (ess & Hess & H).
      injection H as <-. rewrite (traverse_concat_In _ _ e Hess).
      tauto.
    + intros H. injection H as <-. split; [intros [] |].
      intros (_ & Habs & _). discriminate.
  - intros H. injection H as <-. split; [intros [] |].
    intros (Habs & _). discriminate.
Qed.

Lemma start_of_ok (day : element) (start_date : instant) :
  start_of day = Ok start_date <->
  exists date dt,
    sget "date" (attrib day) = Some date
    /\ arrow_get (JStr date) = Some dt
    /\ start_date = mk_instant (wall dt) "Europe/Paris".
Proof.
  unfold start_of, fromdatetime. split.
  - destruct (sget "date" (attrib day)) as [date |]; [| discriminate].
    cbn [orelse bind].
    destruct (arrow_get (JStr date)) as [dt |] eqn:Edt; [| discriminate].
    cbn. intros H. injection H as <-. exists date, dt. auto.
  - intros (date & dt & -> & Hdt & ->). cbn. rewrite Hdt. reflexivity.
Qed.

Lemma day_entries_In (zone_key : string) (day : element)
    (es : list (instant * float)) (e : instant * float) :
  day_entries zone_key day = Ok es ->
  (In e es <->
   tag day = "donneesMarche"
   /\ exists start_date item es',
        start_of day = Ok start_date
        /\ In item (children day)
        /\ item_entries zone_key start_date item = Ok es' /\ In e es').
Proof.
  unfold day_entries.
  destruct (String.eqb_spec (tag day) "donneesMarche") as [Htag | Htag];
    cbn [negb].
  - intros H. apply bind_ok in H. destruct H as (start_date & Hstart & H).
    apply bind_ok in H. destruct H as (ess & Hess & H).
    injection H as <-. rewrite (traverse_concat_In _ _ e Hess). split.
    + intros (item & es' & H). eauto 10.
    + intros (_ & start' & item & es' & Hstart' & H).
      rewrite Hstart in Hstart'. injection Hstart' as <-. eauto.
  - intros H. injection H as <-. split; [intros [] | tauto].
Qed.

(** The entries of the traversal are the usable period-entries of the
    document. *)
Lemma entries_usable (zone_key : string) (obj : element)
    (es : list (instant * float)) (ts : instant) (p : float) :
  entries zone_key obj = Ok es ->
  (In (ts, p) es <-> usable zone_key obj ts p).
Proof.
  unfold entries. intros H.
  apply bind_ok in H. destruct H as (ess & Hess & H). injection H as <-.
  rewrite (traverse_concat_In _ _ (ts, p) Hess). split.
  - intros (day & es_day & Hday & Eday & Hin).
    apply (day_entries_In _ _ (ts, p) Eday) in Hin.
    destruct Hin as (Htag & start_date & item & es_item & Hstart & Hitem
                     & Eitem & Hin).
    apply (item_entries_In _ _ _ (ts, p) Eitem) in Hin.
    destruct Hin as (Hgran & Hzone & value & es_value & Hvalue & Evalue & Hin).
    apply (value_entries_In _ _ ts p Evalue) in Hin.
    destruct Hin as (t & periode & period & Et & Hne & Eperiode & Eperiod
                     & Hts & Ep).
    apply start_of_ok in Hstart.
    destruct Hstart as (date & dt & Edate & Edt & ->).
    cbn in Hts.
    exact (@usable_entry B zone_key obj ts p day item value date periode t
                         dt period Hday Htag Edate Edt Hitem Hgran Hzone
                         Hvalue Et Hne Eperiode Eperiod Hts Ep).
  - intros [day item value date periode t dt period Hday Htag Edate Edt
            Hitem Hgran Hzone Hvalue Et Hne Eperiode Eperiod Hts Ep].
    apply traverse_ok in Hess.
    destruct (Forall2_In_l _ Hess Hday) as (es_day & _ & Eday).
    exists day, es_day. split; [exact Hday |]. split; [exact Eday |].
    apply (day_entries_In _ _ (ts, p) Eday). split; [exact Htag |].
    pose proof Eday as Eday'. unfold day_entries in Eday'.
    rewrite Htag in Eday'. cbn in Eday'.
    assert (Hstart : start_of day = Ok (mk_instant (wall dt) "Europe/Paris"))
      by (apply start_of_ok; eauto).
    rewrite Hstart in Eday'. cbn [bind] in Eday'.
    apply bind_ok in Eday'. destruct Eday' as (ess_items & Eitems & _).
    apply traverse_ok in Eitems.
    destruct (Forall2_In_l _ Eitems Hitem) as (es_item & _ & Eitem).
    exists (mk_instant (wall dt) "Europe/Paris"), item, es_item.
    split; [exact Hstart |]. split; [exact Hitem |]. split; [exact Eitem |].
    apply (item_entries_In _ _ _ (ts, p) Eitem).
    split; [exact Hgran |]. split; [exact Hzone |].
    pose proof Eitem as Eitem'. unfold item_entries in Eitem'.
    apply attrib_is_true in Hgran, Hzone. rewrite Hgran, Hzone in Eitem'.
    cbn [negb] in Eitem'.
    apply bind_ok in Eitem'. destruct Eitem' as (ess_values & Evalues & _).
    apply traverse_ok in Evalues.
    destruct (Forall2_In_l _ Evalues Hvalue) as (es_value & _ & Evalue).
    exists value, es_value. split; [exact Hvalue |]. split; [exact Evalue |].
    apply (value_entries_In _ _ ts p Evalue).
    exists t, periode, period. cbn. repeat split; assumption.
Qed.

Lemma replace_hours_in_range (start_date : instant) (period : Z) :
  datetime_min <= wall start_date + period * hour <= datetime_max ->
  replace_hours start_date period
  = Ok (mk_instant (wall start_date + period * hour) (tz start_date)).
Proof.
  intros [Hlo Hhi]. unfold replace_hours.
  apply Z.leb_le in Hlo, Hhi. rewrite Hlo, Hhi. reflexivity.
Qed.

Lemma scenario_c_prices (d0 : instant) (p0 p2 : float) :
  arrow_get (JStr "2021-01-01") = Some d0 ->
  py_int "0" = Some 0 ->
  py_int "2" = Some 2 ->
  py_float "45.2" = Some p0 ->
  py_float "46.0" = Some p2 ->
  datetime_min <= wall d0 ->
  wall d0 + 2 * hour <= datetime_max ->
  fetch_price "FR" Samples.scenario_c
  = Ok [ mk_datum "FR" "EUR" (mk_instant (wall d0) "Europe/Paris")
                  "rte-france.com" (Some p0);
         mk_datum "FR" "EUR" (mk_instant (wall d0 + 2 * hour) "Europe/Paris")
                  "rte-france.com" (Some p2) ].
Proof.
  intros Hd0 Hi0 Hi2 Hf0 Hf2 Hlo Hhi.
  assert (Hhour : 0 < hour) by reflexivity.
  assert (E : entries "FR" Samples.scenario_c
              = Ok [ (mk_instant (wall d0) "Europe/Paris", p0);
                     (mk_instant (wall d0 + 2 * hour) "Europe/Paris", p2) ]).
  { unfold entries, Samples.scenario_c, Samples.document, Samples.day,
      Samples.item, Samples.entry.
    cbn [children traverse]. unfold day_entries at 1.
    cbn [tag String.eqb Ascii.eqb Bool.eqb negb children].
    unfold start_of. cbn -[hour datetime_min datetime_max Z.add Z.mul Z.leb].
    rewrite Hd0. cbn -[hour datetime_min datetime_max Z.add Z.mul Z.leb].
    rewrite Hi0. cbn -[hour datetime_min datetime_max Z.add Z.mul Z.leb].
    rewrite Hi2, Hf0, Hf2.
    cbn -[hour datetime_min datetime_max Z.add Z.mul Z.leb replace_hours].
    rewrite !replace_hours_in_range
      by (unfold fromdatetime; cbn [wall]; unfold datetime_max in *; lia).
    cbn -[hour Z.add Z.mul]. rewrite Z.mul_0_l, Z.add_0_r. reflexivity. }
  rewrite fetch_price_entries, E. cbn [bind fold_left].
  unfold upsert, iset. cbn [fst snd dict_set].
  unfold instant_eqb at 1. cbn [wall tz].
  replace (Z.eqb (wall d0 + 2 * hour) (wall d0)) with false
    by (symmetry; apply Z.eqb_neq; lia).
  reflexivity.
Qed.

(** Every record returned carries the timestamp and the price of a
    usable period-entry, and every usable entry has a record at its
    timestamp. *)
Lemma usable_entries_recorded (zone_key : string) (obj : element)
    (out : list datum) :
  fetch_price zone_key obj = Ok out ->
  (forall r, In r out ->
             exists p, usable zone_key obj (datetime r) p
                       /\ price r = Some p)
  /\ (forall ts p, usable zone_key obj ts p ->
                   exists r, In r out /\ datetime r = ts).
Proof.
  intros Hout.
  destruct (fetch_price_inv _ _ Hout) as (es & Hes & ->).
  split.
  - intros r Hr. unfold dict_values in Hr. apply in_map_iff in Hr.
    destruct Hr as ([k d] & <- & Hin).
    apply fold_upsert_In in Hin. destruct Hin as [[] | (p & Hp & ->)].
    exists p. cbn. split; [| reflexivity].
    apply (entries_usable _ _ k p Hes), Hp.
  - intros ts p Hu. apply (entries_usable _ _ ts p Hes) in Hu.
    assert (Hc : coherent zone_key (fold_left (upsert zone_key) es []))
      by (apply fold_upsert_coherent; constructor).
    assert (Hk : In ts (dict_keys (fold_left (upsert zone_key) es []))).
    { apply fold_upsert_keys. right.
      apply in_map_iff. exists (ts, p). auto. }
    rewrite <- (coherent_datetimes Hc) in Hk.
    apply in_map_iff in Hk. destruct Hk as (r & Hr & Hin). eauto.
Qed.

(** The timestamp of a usable entry, from its block and its period. *)
Lemma usable_block (zone_key : string) (obj : element) (ts : instant)
    (p : float) :
  usable zone_key obj ts p ->
  exists day value period start,
    usable_in zone_key obj day value period p
    /\ day_start day start
    /\ ts = mk_instant (wall start + period * hour) "Europe/Paris".
Proof.
  intros [day item value date periode t dt period Hday Htag Edate Edt
          Hitem Hgran Hzone Hvalue Et Hne Eperiode Eperiod Hts Ep].
  exists day, value, period, (mk_instant (wall dt) "Europe/Paris").
  split; [| split].
  - exact (@usable_in_entry B zone_key obj day value period p item periode t
             Hday Htag Hitem Hgran Hzone Hvalue Et Hne Eperiode Eperiod Ep).
  - exists date, dt. auto.
  - exact Hts.
Qed.

Lemma usable_in_start (zone_key : string) (obj : element)
    (es : list (instant * float)) (day value : element) (period : Z)
    (p : float) :
  entries zone_key obj = Ok es ->
  usable_in zone_key obj day value period p ->
  exists start,
    day_start day start
    /\ tz start = "Europe/Paris"
    /\ usable zone_key obj
              (mk_instant (wall start + period * hour) "Europe/Paris") p.
Proof.
  intros Hes [item periode t Hday Htag Hitem Hgran Hzone Hvalue Et Hne
              Eperiode Eperiod Ep].
  unfold entries in Hes. apply bind_ok in Hes.
  destruct Hes as (ess & Hess & _). apply traverse_ok in Hess.
  destruct (Forall2_In_l _ Hess Hday) as (es_day & _ & Eday).
  unfold day_entries in Eday. rewrite Htag in Eday. cbn in Eday.
  apply bind_ok in Eday. destruct Eday as (start & Hstart & _).
  apply start_of_ok in Hstart.
  destruct Hstart as (date & dt & Edate & Edt & ->).
  exists (mk_instant (wall dt) "Europe/Paris").
  split; [exists date, dt; auto |].
  split; [reflexivity |]. cbn [wall].
  exact (@usable_entry B zone_key obj _ p day item value date periode t
           dt period Hday Htag Edate Edt Hitem Hgran Hzone Hvalue Et Hne
           Eperiode Eperiod eq_refl Ep).
Qed.

(** C4: every record returned carries the price of a usable period-entry
    and, as its timestamp, the wall-clock reading in Europe/Paris of the
    start of the entry's day (the date of its block at 00:00) plus
    [periode] hours; every usable entry has a record at that timestamp,
    which is [periode] hours after the start of the day as an absolute
    instant when Europe/Paris has the same offset from UTC at both.  For the day 2021-01-01 with the entries
    0 -> 45.2, 1 -> ND and 2 -> 46.0 of zone FR, the records are those of
    00:00 with 45.2 and of 02:00 with 46.0, and no other. *)
Theorem usable_entries_timestamped {T : TzDatabase} (zone_key : string)
    (obj : element) (out : list datum) (d0 : instant) (p0 p2 : float) :
  fetch_price zone_key obj = Ok out ->
  arrow_get (JStr "2021-01-01") = Some d0 ->
  py_int "0" = Some 0 ->
  py_int "2" = Some 2 ->
  py_float "45.2" = Some p0 ->
  py_float "46.0" = Some p2 ->
  datetime_min <= wall d0 ->
  wall d0 + 2 * hour <= datetime_max ->
  (forall r, In r out ->
             exists day value period start p,
               usable_in zone_key obj day value period p
               /\ day_start day start
               /\ datetime r
                  = mk_instant (wall start + period * hour) "Europe/Paris"
               /\ price r = Some p)
  /\ (forall day value period p,
        usable_in zone_key obj day value period p ->
        exists start r,
          day_start day start
          /\ tz start = "Europe/Paris"
          /\ In r out
          /\ datetime r
             = mk_instant (wall start + period * hour) "Europe/Paris"
          /\ (utcoffset (datetime r) = utcoffset start ->
              utc (datetime r) = utc start + period * hour))
  /\ fetch_price "FR" Samples.scenario_c
     = Ok [ mk_datum "FR" "EUR" (mk_instant (wall d0) "Europe/Paris")
                     "rte-france.com" (Some p0);
            mk_datum "FR" "EUR"
                     (mk_instant (wall d0 + 2 * hour) "Europe/Paris")
                     "rte-france.com" (Some p2) ].
Proof.
  intros Hout Hd0 Hi0 Hi2 Hf0 Hf2 Hlo Hhi.
  destruct (usable_entries_recorded _ _ Hout) as [Hrec Hall].
  destruct (fetch_price_inv _ _ Hout) as (es & Hes & _).
  split; [| split].
  - intros r Hr. destruct (Hrec r Hr) as (p & Hu & Hp).
    destruct (usable_block Hu) as (day & value & period & start & Hin
                                   & Hstart & Hts).
    exists day, value, period, start, p. auto.
  - intros day value period p Hu.
    destruct (usable_in_start Hes Hu) as (start & Hstart & Htz & Hu').
    destruct (Hall _ _ Hu') as (r & Hr & Hts).
    exists start, r. repeat split; try assumption.
    intros Hoff. unfold utc. rewrite Hoff, Hts. cbn [wall]. lia.
  - apply scenario_c_prices; assumption.
Qed.

Lemma NoDup_map_eq {X Y : Type} (f : X -> Y) (l : list X) (a b : X) :
  NoDup (map f l) -> In a l -> In b l -> f a = f b -> a = b.
Proof.
  induction l as [| x l IH]; cbn; intros Hnd Ha Hb Hab; [destruct Ha |].
  inversion Hnd as [| ? ? Hnotin Hnd']; subst.
  destruct Ha as [-> | Ha], Hb as [-> | Hb].
  - reflexivity.
  - exfalso. apply Hnotin. rewrite Hab. apply in_map. exact Hb.
  - exfalso. apply Hnotin. rewrite <- Hab. apply in_map. exact Ha.
  - apply IH; assumption.
Qed.

Lemma NoDup_walls (zone : string) (l : list instant) :
  Forall (fun i => tz i = zone) l -> NoDup l -> NoDup (map wall l).
Proof.
  intros Hz Hnd. induction Hnd as [| i l Hnotin _ IH]; cbn; constructor.
  - intros Hin. apply in_map_iff in Hin. destruct Hin as (j & Hw & Hj).
    apply Hnotin. rewrite Forall_forall in Hz.
    pose proof (Hz i (or_introl eq_refl)) as Zi.
    pose proof (Hz j (or_intror Hj)) as Zj.
    destruct i as [wi zi], j as [wj zj]. cbn in *. subst. exact Hj.
  - apply IH. inversion Hz. assumption.
Qed.

(** C6: in a list returned by [fetch_price] no two records have the same
    wall-clock timestamp, all being readings of Europe/Paris, so that two
    records whose timestamps have the same offset from UTC are at two
    absolute instants; and every record has its price set, next to the
    zone, the currency and the source. *)
Theorem one_complete_record_per_timestamp {T : TzDatabase}
    (zone_key : string) (obj : element) (out : list datum) :
  fetch_price zone_key obj = Ok out ->
  NoDup (timestamps out)
  /\ Forall (fun r => tz (datetime r) = "Europe/Paris") out
  /\ (forall r1 r2, In r1 out -> In r2 out ->
                    utc (datetime r1) = utc (datetime r2) ->
                    utcoffset (datetime r1) = utcoffset (datetime r2) ->
                    r1 = r2)
  /\ Forall (fun r => price r <> None
                     /\ zoneKey r = zone_key
                     /\ currency r = "EUR"
                     /\ source r = "rte-france.com") out.
Proof.
  intros H.
  destruct (usable_entries_recorded _ _ H) as [Hrec _].
  destruct (fetch_price_inv _ _ H) as (es & _ & ->).
  assert (Hc : coherent zone_key (fold_left (upsert zone_key) es []))
    by (apply fold_upsert_coherent; constructor).
  assert (Hnd : NoDup (map datetime
                         (dict_values (fold_left (upsert zone_key) es [])))).
  { rewrite (coherent_datetimes Hc). apply fold_upsert_NoDup. constructor. }
  assert (Htz : forall r,
             In r (dict_values (fold_left (upsert zone_key) es [])) ->
             tz (datetime r) = "Europe/Paris").
  { intros r Hr. destruct (Hrec r Hr) as (p & Hu & _).
    destruct (usable_block Hu) as (day & value & period & start & _ & _
                                   & ->).
    reflexivity. }
  split; [| split; [apply Forall_forall; exact Htz |]; split].
  - unfold timestamps. rewrite <- map_map.
    apply (@NoDup_walls "Europe/Paris"); [| exact Hnd].
    apply Forall_forall. intros i Hi. apply in_map_iff in Hi.
    destruct Hi as (r & <- & Hr). exact (Htz r Hr).
  - intros r1 r2 H1 H2 Hutc Hoff.
    apply (NoDup_map_eq datetime _ r1 r2 Hnd H1 H2).
    pose proof (Htz r1 H1) as T1. pose proof (Htz r2 H2) as T2.
    unfold utc in Hutc. rewrite Hoff in Hutc.
    destruct (datetime r1) as [w1 z1], (datetime r2) as [w2 z2].
    cbn in *. subst. f_equal. lia.
  - unfold coherent in Hc. rewrite Forall_forall in Hc.
    apply Forall_forall. intros r Hr.
    unfold dict_values in Hr. apply in_map_iff in Hr.
    destruct Hr as ([k d] & <- & Hin).
    destruct (Hc _ Hin) as (p & Hd). cbn in Hd |- *. subst d. cbn.
    repeat split. discriminate.
Qed.



Lemma imem_existsb (k : instant) (datas : dict instant datum) :
  imem k datas = existsb (instant_eqb k) (dict_keys datas).
Proof.
  unfold imem, dict_mem, dict_keys.
  induction datas as [| [k' d] datas IH]; cbn; [reflexivity |].
  destruct (instant_eqb k k'); [reflexivity | exact IH].
Qed.



End PriceFacts.

Section PriceInstances.

Import Price Samples.

Lemma sentinel_entries_ignored_witness :
  value_step (B := Plain.builtins) "FR"
             (mk_instant 1609459200000000 "Europe/Paris")
             (combine (map datetime prices) prices) (entry "2" "ND")
  = Ok (combine (map datetime prices) prices)
  /\ fetch_price (B := Plain.builtins) "FR" (without_sentinels mixed)
     = fetch_price (B := Plain.builtins) "FR" mixed.
Proof.
  apply (@sentinel_entries_ignored Plain.builtins). reflexivity.
Defined.

Lemma usable_entries_timestamped_witness :
  fetch_price (B := Plain.builtins) "FR" scenario_c
  = Ok [ mk_datum "FR" "EUR" (mk_instant 1609459200000000 "Europe/Paris")
                  "rte-france.com"
                  (Some (S754_finite false 6361334473660826 (-47)));
         mk_datum "FR" "EUR" (mk_instant 1609466400000000 "Europe/Paris")
                  "rte-france.com"
                  (Some (S754_finite false 6473924464345088 (-47))) ].
Proof.
  refine (proj2 (proj2
    (@usable_entries_timestamped Plain.builtins Plain.tzdata "FR" mixed
       prices
       (mk_instant 1609459200000000 "UTC")
       (S754_finite false 6361334473660826 (-47))
       (S754_finite false 6473924464345088 (-47))
       _ _ _ _ _ _ _ _))); try reflexivity.
  - vm_compute. discriminate.
  - vm_compute. discriminate.
Defined.

Lemma one_complete_record_per_timestamp_witness :
  NoDup (timestamps prices)
  /\ Forall (fun r => tz (datetime r) = "Europe/Paris") prices
  /\ (forall r1 r2, In r1 prices -> In r2 prices ->
         utc (T := Plain.tzdata) (datetime r1)
         = utc (T := Plain.tzdata) (datetime r2) ->
         utcoffset (TzDatabase := Plain.tzdata) (datetime r1)
         = utcoffset (TzDatabase := Plain.tzdata) (datetime r2) ->
         r1 = r2)
  /\ Forall (fun r => price r <> None
                     /\ zoneKey r = "FR"
                     /\ currency r = "EUR"
                     /\ source r = "rte-france.com") prices.
Proof.
  apply (@one_complete_record_per_timestamp Plain.builtins Plain.tzdata
           "FR" mixed).
  reflexivity.
Defined.

(** C4 read with absolute instants fails: on 2021-03-28 Europe/Paris goes
    from UTC+1 to UTC+2, and the record of the entry with [periode] 2 is
    at 02:00+02:00, one hour after the start of the day at 00:00+01:00. *)
Lemma spring_forward_hour_short :
  exists day value start out r,
    usable_in (B := Plain.builtins) "FR" spring_forward day value 2
              (S754_finite false 5629499534213120 (-48))
    /\ day_start (B := Plain.builtins) day start
    /\ fetch_price (B := Plain.builtins) "FR" spring_forward = Ok out
    /\ In r out
    /\ datetime r = mk_instant (wall start + 2 * hour) "Europe/Paris"
    /\ utc (T := Plain.tzdata) (datetime r)
       = utc (T := Plain.tzdata) start + 1 * hour
    /\ utc (T := Plain.tzdata) (datetime r)
       <> utc (T := Plain.tzdata) start + 2 * hour.
Proof.
  exists (day "2021-03-28"
              [ item "FR" "Global" [ entry "1" "10.0"; entry "2" "20.0" ] ]),
    (entry "2" "20.0"),
    (mk_instant 1616889600000000 "Europe/Paris").
  eexists. eexists. split; [| split; [| split; [| split; [| split]]]].
  - apply (@usable_in_entry Plain.builtins "FR" spring_forward _ _ 2 _
             (item "FR" "Global" [ entry "1" "10.0"; entry "2" "20.0" ])
             "2" "20.0").
    + cbn; auto.
    + reflexivity.
    + cbn; auto.
    + reflexivity.
    + reflexivity.
    + cbn; auto.
    + reflexivity.
    + discriminate.
    + reflexivity.
    + vm_compute. reflexivity.
    + vm_compute. reflexivity.
  - exists "2021-03-28", (mk_instant 1616889600000000 "UTC").
    repeat split.
  - vm_compute. reflexivity.
  - right. left. reflexivity.
  - vm_compute. reflexivity.
  - split; [vm_compute; reflexivity | vm_compute; discriminate].
Defined.

(** C6 read with absolute instants fails: the two records returned for
    2021-03-28, at 01:00+01:00 and at 02:00+02:00, are at one instant,
    00:00 UTC, with two prices. *)
Lemma spring_forward_shared_instant :
  exists r1 r2,
    fetch_price (B := Plain.builtins) "FR" spring_forward = Ok [r1; r2]
    /\ price r1 <> price r2
    /\ wall (datetime r1) <> wall (datetime r2)
    /\ utc (T := Plain.tzdata) (datetime r1)
       = utc (T := Plain.tzdata) (datetime r2).
Proof.
  do 2 eexists. split; [vm_compute; reflexivity |].
  split; [discriminate |].
  split; [discriminate | vm_compute; reflexivity].
Defined.



End PriceInstances.

(** * Further properties *)

(** ** More on loops *)

Section MoreLoops.

Variables A B S : Type.

Lemma traverse_app (f : A -> result B) (xs ys : list A) :
  traverse f (xs ++ ys)
  = let! us := traverse f xs in
    let! vs := traverse f ys in
    Ok (us ++ vs)%list.
Proof.
  induction xs as [| x xs IH]; cbn.
  - destruct (traverse f ys); reflexivity.
  - destruct (f x) as [y | e]; cbn; [| reflexivity].
    rewrite IH. destruct (traverse f xs) as [us | e]; cbn; [| reflexivity].
    destruct (traverse f ys); reflexivity.
Qed.

Lemma traverse_ext_in (f g : A -> result B) (xs : list A) :
  (forall x, In x xs -> f x = g x) -> traverse f xs = traverse g xs.
Proof.
  induction xs as [| x xs IH]; intros H; cbn; [reflexivity |].
  rewrite (H x (or_introl eq_refl)), IH; [reflexivity |].
  intros x' Hx'. apply H. right. exact Hx'.
Qed.

(** A comprehension returns when each of its elements does. *)
Lemma traverse_total (f : A -> result B) (xs : list A) :
  (exists ys, traverse f xs = Ok ys) <->
  (forall x, In x xs -> exists y, f x = Ok y).
Proof.
  split.
  - intros (ys & H) x Hx. apply traverse_ok in H.
    destruct (Forall2_In_l _ H Hx) as (y & _ & Hy). eauto.
  - induction xs as [| x xs IH]; intros H; cbn; [eauto |].
    destruct (H x (or_introl eq_refl)) as (y & ->). cbn.
    destruct IH as (ys & ->); [intros x' Hx'; apply H; right; exact Hx' |].
    cbn. eauto.
Qed.

Lemma for_each_filter (body : S -> A -> result S) (keep : A -> bool)
    (xs : list A) :
  (forall s x, keep x = false -> body s x = Ok s) ->
  forall s, for_each body (filter keep xs) s = for_each body xs s.
Proof.
  intros Hskip. induction xs as [| x xs IH]; intros s; cbn; [reflexivity |].
  destruct (keep x) eqn:E; cbn.
  - destruct (body s x); cbn; [apply IH | reflexivity].
  - rewrite (Hskip s x E). cbn. apply IH.
Qed.

Lemma forallb_ext_in (f g : A -> bool) (xs : list A) :
  (forall x, In x xs -> f x = g x) -> forallb f xs = forallb g xs.
Proof.
  induction xs as [| x xs IH]; intros H; cbn; [reflexivity |].
  rewrite (H x (or_introl eq_refl)), IH; [reflexivity |].
  intros x' Hx'. apply H. right. exact Hx'.
Qed.

End MoreLoops.

(** ** More on the production rows *)

Section MoreProduction.

Import Production.
Context {B : Builtins}.

Lemma same_columns_cell (r r' : fields) (c : string) :
  same_columns r r' -> In c ("date_heure" :: value_columns) ->
  cell r c = cell r' c.
Proof. intros H Hc. unfold cell. rewrite (H c Hc). reflexivity. Qed.

Lemma same_columns_convert (r r' : fields) :
  same_columns r r' -> convert_row r = convert_row r'.
Proof.
  intros H. unfold convert_row.
  rewrite (same_columns_cell H (or_introl eq_refl)).
  rewrite (traverse_ext_in
             (fun c => let! f := astype_float (cell r c) in Ok (c, f))
             (fun c => let! f := astype_float (cell r' c) in Ok (c, f)));
    [reflexivity |].
  intros c Hc. rewrite (same_columns_cell H (or_intror Hc)). reflexivity.
Qed.

Lemma same_columns_has_column (data data' : list fields) (c : string) :
  Forall2 same_columns data data' ->
  In c ("date_heure" :: value_columns) ->
  has_column data c = has_column data' c.
Proof.
  intros H Hc. unfold has_column.
  induction H as [| r r' rs rs' Hr _ IH]; cbn; [reflexivity |].
  rewrite IH. f_equal. unfold smem, dict_mem.
  fold (sget c r). fold (sget c r'). rewrite (Hr c Hc). reflexivity.
Qed.

(** X1: once the frame is built, nothing but the twelve selected columns
    of a row is read: two payloads without an integer too large for a
    float, whose rows agree, one by one, on these columns give the same
    result, records or exception. *)
Theorem only_selected_columns_read (zone_key : string)
    (data data' : list fields) :
  float_sized data -> float_sized data' ->
  Forall2 same_columns data data' ->
  fetch_production zone_key data = fetch_production zone_key data'.
Proof.
  intros F F' H. unfold fetch_production, build_frame.
  rewrite (DataFrame_total F), (DataFrame_total F'). cbn [bind].
  rewrite (forallb_ext_in (has_column data) (has_column data')
             ("date_heure" :: value_columns))
    by (intros c Hc; apply same_columns_has_column; assumption).
  destruct (forallb _ _); [| reflexivity].
  replace (traverse convert_row data') with (traverse convert_row data);
    [reflexivity |].
  clear F F'. induction H as [| r r' rs rs' Hr _ IH]; cbn; [reflexivity |].
  rewrite (same_columns_convert Hr), IH. reflexivity.
Qed.

(** A row appends its records to the list whatever the list holds. *)
Lemma row_step_appends (zone_key : string) (dps : list datapoint)
    (s : series) :
  row_step zone_key dps s
  = let! recs := row_step zone_key [] s in Ok (dps ++ recs)%list.
Proof.
  unfold row_step.
  destruct (build_production s) as [prod | e]; cbn [bind]; [| reflexivity].
  destruct (build_storage s) as [sto | e]; cbn [bind]; [| reflexivity].
  destruct (passes_gate prod); cbn [negb].
  - destruct (arrow_get (date_heure s)); reflexivity.
  - cbn. rewrite app_nil_r. reflexivity.
Qed.

Lemma rows_loop_appends (zone_key : string) (df : list series)
    (dps : list datapoint) :
  for_each (row_step zone_key) df dps
  = let! recs := for_each (row_step zone_key) df [] in
    Ok (dps ++ recs)%list.
Proof.
  revert dps. induction df as [| s df IH]; intros dps; cbn.
  - rewrite app_nil_r. reflexivity.
  - rewrite (row_step_appends zone_key dps s).
    destruct (row_step zone_key [] s) as [recs | e]; cbn [bind];
      [| reflexivity].
    rewrite (IH (dps ++ recs)%list), (IH recs).
    destruct (for_each (row_step zone_key) df []) as [rest | e]; cbn;
      [| reflexivity].
    rewrite app_assoc. reflexivity.
Qed.

Lemma has_column_app (d1 d2 : list fields) (c : string) :
  has_column (d1 ++ d2) c = has_column d1 c || has_column d2 c.
Proof. unfold has_column. apply existsb_app. Qed.

(** X2: the rows are handled one by one: when the call returns for each
    of two payloads, it returns for the two put end to end, with the two
    lists of records put end to end. *)
Theorem payloads_concatenate (zone_key : string) (d1 d2 : list fields)
    (o1 o2 : list datapoint) :
  fetch_production zone_key d1 = Ok o1 ->
  fetch_production zone_key d2 = Ok o2 ->
  fetch_production zone_key (d1 ++ d2) = Ok (o1 ++ o2)%list.
Proof.
  unfold fetch_production. intros H1 H2.
  apply bind_ok in H1. destruct H1 as (df1 & Hdf1 & H1).
  apply bind_ok in H2. destruct H2 as (df2 & Hdf2 & H2).
  apply build_frame_inv in Hdf1. destruct Hdf1 as (F1 & E1 & Hdf1).
  apply build_frame_inv in Hdf2. destruct Hdf2 as (F2 & E2 & Hdf2).
  apply DataFrame_ok in F1. destruct F1 as [_ F1].
  apply DataFrame_ok in F2. destruct F2 as [_ F2].
  assert (Hdf : build_frame (d1 ++ d2) = Ok (df1 ++ df2)%list).
  { unfold build_frame. rewrite DataFrame_total.
    - cbn [bind].
      rewrite (forallb_ext_in (has_column (d1 ++ d2)) (has_column d1)).
      + rewrite E1, traverse_app, Hdf1, Hdf2. reflexivity.
      + intros c Hc. rewrite has_column_app.
        rewrite forallb_forall in E1. rewrite (E1 c Hc). reflexivity.
    - intros r v Hr Hv. apply in_app_or in Hr. destruct Hr as [Hr | Hr].
      + exact (F1 r v Hr Hv).
      + exact (F2 r v Hr Hv). }
  rewrite Hdf. cbn [bind].
  rewrite for_each_app, H1. cbn [bind].
  rewrite rows_loop_appends, H2. reflexivity.
Qed.

Lemma convert_row_total (row : fields) :
  (exists s, convert_row row = Ok s) <->
  (forall c, In c value_columns ->
             exists f, astype_float (cell row c) = Ok f).
Proof.
  unfold convert_row. split.
  - intros (s & H) c Hc. apply bind_ok in H. destruct H as (vs & Hvs & _).
    assert (Hall : exists ys,
               traverse (fun c => let! f := astype_float (cell row c) in
                                  Ok (c, f)) value_columns = Ok ys)
      by eauto.
    rewrite traverse_total in Hall. destruct (Hall c Hc) as ([c' f] & Hf).
    destruct (astype_float (cell row c)) as [f' | e]; [eauto | discriminate].
  - intros H.
    assert (Hall : exists ys,
               traverse (fun c => let! f := astype_float (cell row c) in
                                  Ok (c, f)) value_columns = Ok ys).
    { apply traverse_total. intros c Hc. destruct (H c Hc) as (f & ->).
      cbn. eauto. }
    destruct Hall as (ys & ->). cbn. eauto.
Qed.

(** X3: for a payload without an integer too large for a float, the call
    returns a list exactly when the frame has the twelve columns, every
    cell of a value column converts to a float, and the date of every row
    that passes the gate parses; the dates of the rows that the gate drops
    are not looked at. *)
Theorem fetch_production_returns_iff (zone_key : string)
    (data : list fields) :
  float_sized data ->
  (exists out, fetch_production zone_key data = Ok out) <->
  (forall c, In c ("date_heure" :: value_columns) ->
             has_column data c = true)
  /\ (forall row c, In row data -> In c value_columns ->
                    exists f, astype_float (cell row c) = Ok f)
  /\ (forall row s, In row data -> convert_row row = Ok s ->
                    passing s = true -> arrow_get (date_heure s) <> None).
Proof.
  intros Hsized. split.
  - intros (out & Hout).
    destruct (fetch_production_inv _ _ Hout) as (df & Hdf & Hrecs).
    pose proof (build_frame_rows _ Hdf) as Hrows.
    apply build_frame_inv in Hdf. destruct Hdf as (_ & Ecols & Hdf).
    rewrite forallb_forall in Ecols.
    split; [exact Ecols |]. split.
    + intros row c Hrow Hc.
      destruct (Forall2_In_l _ Hrows Hrow) as (s & _ & Hs).
      apply (convert_row_total row); eauto.
    + intros row s Hrow Hs Hpass.
      destruct (Forall2_In_l _ Hrows Hrow) as (s' & Hs' & Hconv).
      rewrite Hs in Hconv. injection Hconv as <-.
      assert (Hin : In s (filter passing df))
        by (apply filter_In; auto).
      destruct (Forall2_In_l _ Hrecs Hin) as (r & _ & _ & Hd & _).
      rewrite Hd. discriminate.
  - intros (Hcols & Hcells & Hdates).
    assert (Hconv : exists df, traverse convert_row data = Ok df).
    { apply traverse_total. intros row Hrow. apply convert_row_total.
      intros c Hc. apply (Hcells row c Hrow Hc). }
    destruct Hconv as (df & Hconv).
    assert (Hdf : build_frame data = Ok df).
    { unfold build_frame. rewrite (DataFrame_total Hsized). cbn [bind].
      replace (forallb (has_column data) ("date_heure" :: value_columns))
        with true by (symmetry; apply forallb_forall; exact Hcols).
      exact Hconv. }
    rewrite (fetch_production_frame zone_key _ Hdf).
    apply rows_loop_total; [exact (build_frame_shaped _ Hdf) |].
    intros s Hs Hpass. apply traverse_ok in Hconv.
    destruct (Forall2_In_r _ Hconv Hs) as (row & Hrow & Hrs).
    exact (Hdates row s Hrow Hrs Hpass).
Qed.

(** X4: a payload without an integer too large for a float, in which no
    row has one of the twelve columns, the empty payload among them,
    raises [KeyError]; it does not return an empty list. *)
Theorem absent_column_raises_key_error (zone_key : string)
    (data : list fields) (c : string) :
  float_sized data ->
  In c ("date_heure" :: value_columns) ->
  (forall row, In row data -> sget c row = None) ->
  fetch_production zone_key data = Raise KeyError.
Proof.
  intros Hsized Hc Habsent. unfold fetch_production, build_frame.
  rewrite (DataFrame_total Hsized). cbn [bind].
  replace (forallb (has_column data) ("date_heure" :: value_columns))
    with false; [reflexivity |].
  symmetry. apply not_true_is_false. intros Hall.
  rewrite forallb_forall in Hall. specialize (Hall c Hc).
  unfold has_column in Hall. apply existsb_exists in Hall.
  destruct Hall as (row & Hrow & Hmem).
  unfold smem, dict_mem in Hmem. fold (sget c row) in Hmem.
  rewrite (Habsent row Hrow) in Hmem. discriminate.
Qed.

Lemma row_step_relabel (zone_key zone_key' : string)
    (dps : list datapoint) (s : series) :
  row_step zone_key' (map (relabel zone_key') dps) s
  = let! out := row_step zone_key dps s in
    Ok (map (relabel zone_key') out).
Proof.
  unfold row_step.
  destruct (build_production s) as [prod | e]; cbn [bind]; [| reflexivity].
  destruct (build_storage s) as [sto | e]; cbn [bind]; [| reflexivity].
  destruct (passes_gate prod); cbn [negb]; [| reflexivity].
  destruct (arrow_get (date_heure s)); cbn; [| reflexivity].
  rewrite map_app. reflexivity.
Qed.

(** X5: the zone key is copied into the records and used for nothing
    else: the call for another key returns the same records under that
    key, or raises the same exception. *)
Theorem zone_key_only_labels (zone_key zone_key' : string)
    (data : list fields) :
  fetch_production zone_key' data
  = let! out := fetch_production zone_key data in
    Ok (map (relabel zone_key') out).
Proof.
  unfold fetch_production.
  destruct (build_frame data) as [df | e]; cbn [bind]; [| reflexivity].
  change (@nil datapoint) with (map (relabel zone_key') []) at 1.
  generalize (@nil datapoint).
  induction df as [| s df IH]; intros dps; cbn; [reflexivity |].
  rewrite (row_step_relabel zone_key zone_key' dps s).
  destruct (row_step zone_key dps s) as [dps' | e]; cbn [bind];
    [apply IH | reflexivity].
Qed.

(** X6: the values that [is_not_nan_and_truthy] rejects are NaN, [0.0]
    and [-0.0], and no other: negative numbers and infinities count as
    present. *)
Theorem rejected_values (v : float) :
  is_not_nan_and_truthy v = false <->
  v = nan \/ v = S754_zero false \/ v = S754_zero true.
Proof.
  unfold is_not_nan_and_truthy, nan.
  destruct v as [[|] | [|] | | [|] m e]; cbn; split; intros H;
    try discriminate; auto;
    destruct H as [H | [H | H]]; discriminate.
Qed.

(** X7: the storage mapping has the single key hydro, and with one of
    the two flows at zero it holds exactly the other one negated: what is
    pumped or turbined goes into storage with the opposite sign. *)
Theorem storage_negates_flow (s : series) (p t : float) :
  loc s "pompage" = Ok p ->
  loc s "hydraulique_step_turbinage" = Ok t ->
  exists sto,
    build_storage s = Ok [("hydro", sto)]
    /\ (valid p = true -> is_not_nan_and_truthy p = true ->
        truthy t = false -> sto = opp p)
    /\ (valid t = true -> is_not_nan_and_truthy t = true ->
        truthy p = false -> sto = opp t).
Proof.
  intros Hp Ht. unfold build_storage. rewrite Hp, Ht. cbn [bind].
  eexists. split; [reflexivity |]. split.
  - intros Hv Hpres Hzero. rewrite (mul_neg_one p Hv).
    destruct t as [st | [|] | | [|] mt et]; try discriminate Hzero.
    destruct p as [sp | sp | | sp mp ep]; try discriminate Hpres;
      reflexivity.
  - intros Hv Hpres Hzero. rewrite (mul_neg_one t Hv).
    destruct p as [sp | [|] | | [|] mp ep]; try discriminate Hzero.
    destruct t as [st | st | | st mt et]; try discriminate Hpres;
      destruct sp; reflexivity.
Qed.

End MoreProduction.

(** ** More on the price document *)

Section MorePrice.

Import Price.
Context {B : Builtins}.

Lemma item_step_skips (zone_key : string) (start_date : instant)
    (datas : dict instant datum) (item : element) :
  is_match zone_key item = false ->
  item_step zone_key start_date datas item = Ok datas.
Proof.
  unfold is_match, item_step.
  destruct (attrib_is item "granularite" "Global"); cbn; [| reflexivity].
  intros ->. reflexivity.
Qed.

Lemma day_step_prune (zone_key : string) (datas : dict instant datum)
    (day : element) :
  day_step zone_key datas (prune_day zone_key day)
  = day_step zone_key datas day.
Proof.
  destruct day as [t a x c]. unfold day_step, prune_day, start_of. cbn.
  destruct (negb (String.eqb t "donneesMarche")); [reflexivity |].
  destruct (let! date := orelse (sget "date" a) KeyError in _)
    as [start_date | e]; cbn; [| reflexivity].
  apply for_each_filter. intros. apply item_step_skips. assumption.
Qed.

(** X8: the loops read the [Global] items of the requested zone in the
    [donneesMarche] children of the root and nothing else: without the
    other children and the other items the result, records or exception,
    is the same. *)
Theorem only_matching_items_read (zone_key : string) (obj : element) :
  fetch_price zone_key (prune zone_key obj) = fetch_price zone_key obj.
Proof.
  destruct obj as [t a x c]. unfold fetch_price, prune. cbn.
  rewrite (for_each_map (day_step zone_key) (prune_day zone_key)
             (day_step zone_key))
    by (intros; apply day_step_prune).
  rewrite for_each_filter; [reflexivity |].
  intros s d Hd. unfold day_step. rewrite Hd. reflexivity.
Qed.

Lemma unique_values (datas : dict instant datum) (k : instant)
    (a b : datum) :
  NoDup (dict_keys datas) -> In (k, a) datas -> In (k, b) datas -> a = b.
Proof.
  unfold dict_keys.
  induction datas as [| [k0 d0] datas IH]; cbn; intros Hnd Ha Hb;
    [contradiction |].
  inversion Hnd as [| ? ? Hnotin Hnd']; subst.
  assert (Hfst : forall d, In (k0, d) datas -> False).
  { intros d Hd. apply Hnotin. apply in_map_iff. exists (k0, d). auto. }
  destruct Ha as [Ha | Ha], Hb as [Hb | Hb].
  - congruence.
  - injection Ha as <- <-. destruct (Hfst _ Hb).
  - injection Hb as <- <-. destruct (Hfst _ Ha).
  - exact (IH Hnd' Ha Hb).
Qed.

(** After [datas[k] = v], the key [k] holds [v] and nothing else. *)
Lemma iset_In_other (k k' : instant) (v v' : datum)
    (datas : dict instant datum) :
  NoDup (dict_keys datas) ->
  In (k', v') (iset k v datas) ->
  (k' = k /\ v' = v) \/ (k' <> k /\ In (k', v') datas).
Proof.
  intros Hnd Hin.
  destruct (instant_eqb_spec k' k) as [-> | Hne].
  - left. split; [reflexivity |].
    apply (@unique_values (iset k v datas) k v' v).
    + apply iset_keys_NoDup, Hnd.
    + exact Hin.
    + apply iget_In, iget_iset_same.
  - right. split; [exact Hne |].
    apply iset_In in Hin. destruct Hin as [[E _] | Hin]; [contradiction |].
    exact Hin.
Qed.

(** A stored record holds the price of the last entry with its
    timestamp. *)
Lemma fold_upsert_last (zone_key : string) (es : list (instant * float))
    (k : instant) (d : datum) :
  In (k, d) (fold_left (upsert zone_key) es []) ->
  exists es1 p es2,
    es = (es1 ++ (k, p) :: es2)%list
    /\ ~ In k (map fst es2)
    /\ d = mk_datum zone_key "EUR" k "rte-france.com" (Some p).
Proof.
  induction es as [| [k0 p0] es IH] using rev_ind; cbn; [contradiction |].
  rewrite fold_left_app. cbn [fold_left]. unfold upsert at 1. cbn [fst snd].
  intros Hin. apply iset_In_other in Hin;
    [| apply fold_upsert_NoDup; constructor].
  destruct Hin as [[-> ->] | [Hne Hin]].
  - exists es, p0, []. split; [reflexivity |]. split; [intros [] | reflexivity].
  - destruct (IH Hin) as (es1 & p & es2 & -> & Hnot & ->).
    exists es1, p, (es2 ++ [(k0, p0)])%list.
    split; [rewrite <- app_assoc; reflexivity |]. split; [| reflexivity].
    rewrite map_app, in_app_iff. cbn. intros [H | [H | []]]; auto.
Qed.

(** X9: when a timestamp is met more than once, the record keeps the
    price of the entry met last: each record returned holds the price of
    the last usable entry, in the order of the traversal, that has its
    timestamp. *)
Theorem last_price_wins (zone_key : string) (obj : element)
    (es : list (instant * float)) :
  entries zone_key obj = Ok es ->
  exists out,
    fetch_price zone_key obj = Ok out
    /\ forall r, In r out ->
         exists es1 p es2,
           es = (es1 ++ (datetime r, p) :: es2)%list
           /\ ~ In (datetime r) (map fst es2)
           /\ price r = Some p.
Proof.
  intros Hes. rewrite fetch_price_entries, Hes. cbn [bind].
  eexists. split; [reflexivity |].
  intros r Hr. unfold dict_values in Hr. apply in_map_iff in Hr.
  destruct Hr as ([k d] & <- & Hin).
  destruct (fold_upsert_last _ _ _ _ Hin) as (es1 & p & es2 & -> & Hnot & ->).
  cbn. exists es1, p, es2. split; [reflexivity |]. split; [exact Hnot |].
  reflexivity.
Qed.

Lemma iset_new (k : instant) (v : datum) (datas : dict instant datum) :
  imem k datas = false -> iset k v datas = (datas ++ [(k, v)])%list.
Proof.
  unfold imem, iset, dict_mem.
  induction datas as [| [k0 d0] datas IH]; cbn; [reflexivity |].
  destruct (instant_eqb k k0); [discriminate |].
  intros H. rewrite (IH H). reflexivity.
Qed.

Lemma imem_app (k : instant) (d1 d2 : dict instant datum) :
  imem k (d1 ++ d2)%list = imem k d1 || imem k d2.
Proof.
  rewrite !imem_existsb. unfold dict_keys. rewrite map_app.
  apply existsb_app.
Qed.

Lemma fold_upsert_distinct (zone_key : string)
    (es : list (instant * float)) (datas : dict instant datum) :
  NoDup (map fst es) ->
  (forall e, In e es -> imem (fst e) datas = false) ->
  fold_left (upsert zone_key) es datas
  = (datas
     ++ map (fun e => (fst e,
                       mk_datum zone_key "EUR" (fst e) "rte-france.com"
                                (Some (snd e)))) es)%list.
Proof.
  revert datas. induction es as [| e es IH]; intros datas Hnd Hnew; cbn.
  - rewrite app_nil_r. reflexivity.
  - inversion Hnd as [| ? ? Hnotin Hnd']; subst.
    unfold upsert at 2. rewrite iset_new by (apply Hnew; left; reflexivity).
    rewrite IH; [rewrite <- app_assoc; reflexivity | exact Hnd' |].
    intros e' He'. rewrite imem_app, (Hnew e' (or_intror He')). cbn.
    unfold imem, dict_mem. cbn.
    destruct (instant_eqb_spec (fst e') (fst e)) as [E | _]; [| reflexivity].
    exfalso. apply Hnotin. rewrite <- E. apply in_map. exact He'.
Qed.

(** X10: when the usable entries have pairwise distinct timestamps, the
    list returned is exactly these entries, one record each, in the
    order of the document. *)
Theorem distinct_entries_returned_as_met (zone_key : string)
    (obj : element) (es : list (instant * float)) :
  entries zone_key obj = Ok es ->
  NoDup (map fst es) ->
  fetch_price zone_key obj
  = Ok (map (fun e => mk_datum zone_key "EUR" (fst e) "rte-france.com"
                               (Some (snd e))) es).
Proof.
  intros Hes Hnd. rewrite fetch_price_entries, Hes. cbn [bind].
  rewrite fold_upsert_distinct by (auto || reflexivity).
  cbn [app]. unfold dict_values. rewrite map_map. reflexivity.
Qed.

Lemma replace_hours_range (start_date dt : instant) (period : Z) :
  replace_hours start_date period = Ok dt <->
  dt = mk_instant (wall start_date + period * hour) (tz start_date)
  /\ datetime_min <= wall start_date + period * hour <= datetime_max.
Proof.
  unfold replace_hours. split.
  - destruct (Z.leb_spec datetime_min (wall start_date + period * hour))
      as [Hlo | _]; cbn; [| discriminate].
    destruct (Z.leb_spec (wall start_date + period * hour) datetime_max)
      as [Hhi | _]; cbn; [| discriminate].
    intros E. injection E as <-. auto.
  - intros (-> & Hlo & Hhi). apply Z.leb_le in Hlo, Hhi.
    rewrite Hlo, Hhi. reflexivity.
Qed.

(** What it takes for a value to be read without an exception. *)
Lemma value_entries_total (start_date : instant) (value : element) :
  (exists es, value_entries start_date value = Ok es) <->
  (is_sentinel value = false ->
   exists periode period t p,
     sget "periode" (attrib value) = Some periode
     /\ py_int periode = Some period
     /\ datetime_min <= wall start_date + period * hour <= datetime_max
     /\ text value = Some t
     /\ py_float t = Some p).
Proof.
  unfold value_entries.
  destruct (is_sentinel value); [split; eauto; discriminate |].
  split.
  - intros (es & H) _.
    destruct (sget "periode" (attrib value)) as [periode |];
      [| discriminate H].
    cbn [orelse bind] in H.
    destruct (py_int periode) as [period |] eqn:Eperiod; [| discriminate H].
    cbn [orelse bind] in H.
    destruct (replace_hours start_date period) as [dt | e] eqn:Edt;
      [| discriminate H].
    cbn [bind] in H. unfold float_of_text in H.
    destruct (text value) as [t |]; [| discriminate H].
    destruct (py_float t) as [p |] eqn:Ep; [| discriminate H].
    apply replace_hours_range in Edt. destruct Edt as [_ Hrange].
    exists periode, period, t, p. auto.
  - intros H.
    destruct (H eq_refl) as (periode & period & t & p & -> & Eperiod
                             & Hrange & -> & Ep).
    cbn [orelse bind]. rewrite Eperiod. cbn [orelse bind].
    assert (Edt : replace_hours start_date period
                  = Ok (mk_instant (wall start_date + period * hour)
                                   (tz start_date)))
      by (apply replace_hours_range; auto).
    rewrite Edt. cbn [bind float_of_text]. rewrite Ep. cbn. eauto.
Qed.

Lemma item_entries_total (zone_key : string) (start_date : instant)
    (item : element) :
  (exists es, item_entries zone_key start_date item = Ok es) <->
  (is_match zone_key item = true ->
   forall value, In value (children item) ->
                 exists es, value_entries start_date value = Ok es).
Proof.
  unfold item_entries, is_match.
  destruct (attrib_is item "granularite" "Global"); cbn [negb andb];
    [| split; eauto; discriminate].
  destruct (attrib_is item "perimetre" zone_key); cbn [negb];
    [| split; eauto; discriminate].
  rewrite <- traverse_total. split.
  - intros (es & H) _. apply bind_ok in H. destruct H as (ess & -> & _).
    eauto.
  - intros H. destruct (H eq_refl) as (ess & ->). cbn. eauto.
Qed.

Lemma day_entries_total (zone_key : string) (day : element) :
  (exists es, day_entries zone_key day = Ok es) <->
  (tag day = "donneesMarche" ->
   exists start_date,
     start_of day = Ok start_date
     /\ forall item, In item (children day) ->
                     exists es, item_entries zone_key start_date item = Ok es).
Proof.
  unfold day_entries.
  destruct (String.eqb_spec (tag day) "donneesMarche") as [Htag | Htag];
    cbn [negb]; [| split; [contradiction | eauto]].
  split.
  - intros (es & H) _. apply bind_ok in H.
    destruct H as (start_date & Hstart & H).
    apply bind_ok in H. destruct H as (ess & Hess & _).
    exists start_date. split; [exact Hstart |].
    apply traverse_total. eauto.
  - intros H. destruct (H Htag) as (start_date & -> & Hitems).
    apply traverse_total in Hitems. destruct Hitems as (ess & Hess).
    cbn [bind]. rewrite Hess. cbn. eauto.
Qed.

(** X11: the call returns a list exactly when every [donneesMarche]
    child of the root has a [date] that parses and every entry other than
    the sentinel, in its [Global] items of the requested zone, has an
    integer [periode] that keeps the timestamp in [datetime]'s range and
    a text that [float] accepts.  Anything else raises. *)
Theorem fetch_price_returns_iff (zone_key : string) (obj : element) :
  (exists out, fetch_price zone_key obj = Ok out) <->
  (forall day,
      In day (children obj) -> tag day = "donneesMarche" ->
      exists date dt,
        sget "date" (attrib day) = Some date
        /\ arrow_get (JStr date) = Some dt
        /\ forall item value,
             In item (children day) -> is_match zone_key item = true ->
             In value (children item) -> is_sentinel value = false ->
             exists periode period t p,
               sget "periode" (attrib value) = Some periode
               /\ py_int periode = Some period
               /\ datetime_min <= wall dt + period * hour <= datetime_max
               /\ text value = Some t
               /\ py_float t = Some p).
Proof.
  assert (Hentries : (exists out, fetch_price zone_key obj = Ok out) <->
                     (exists es, entries zone_key obj = Ok es)).
  { rewrite fetch_price_entries. split.
    - intros (out & H). apply bind_ok in H. destruct H as (es & -> & _).
      eauto.
    - intros (es & ->). cbn. eauto. }
  rewrite Hentries. clear Hentries. unfold entries.
  assert (Htrav : (exists es,
                      (let! ess := traverse (day_entries zone_key)
                                            (children obj) in
                       Ok (List.concat ess)) = Ok es) <->
                  (forall day, In day (children obj) ->
                               exists es, day_entries zone_key day = Ok es)).
  { rewrite <- traverse_total. split.
    - intros (es & H). apply bind_ok in H. destruct H as (ess & -> & _).
      eauto.
    - intros (ess & ->). cbn. eauto. }
  rewrite Htrav. clear Htrav. split.
  - intros H day Hday Htag.
    destruct (proj1 (day_entries_total zone_key day) (H day Hday) Htag)
      as (start_date & Hstart & Hitems).
    apply start_of_ok in Hstart. destruct Hstart as (date & dt & Hd & Hdt & ->).
    exists date, dt. split; [exact Hd |]. split; [exact Hdt |].
    intros item value Hitem Hmatch Hvalue Hsent.
    apply (proj1 (value_entries_total
                    (mk_instant (wall dt) "Europe/Paris") value));
      [| exact Hsent].
    apply (proj1 (item_entries_total
                    zone_key (mk_instant (wall dt) "Europe/Paris") item));
      [apply Hitems, Hitem | exact Hmatch | exact Hvalue].
  - intros H day Hday. apply day_entries_total. intros Htag.
    destruct (H day Hday Htag) as (date & dt & Hd & Hdt & Hvalues).
    exists (mk_instant (wall dt) "Europe/Paris").
    split; [apply start_of_ok; eauto |].
    intros item Hitem. apply item_entries_total. intros Hmatch value Hvalue.
    apply value_entries_total. intros Hsent.
    exact (Hvalues item value Hitem Hmatch Hvalue Hsent).
Qed.

Lemma value_entries_keys (start_date : instant) (value : element)
    (es : list (instant * float)) (e : instant * float) :
  value_entries start_date value = Ok es -> In e es ->
  tz (fst e) = tz start_date
  /\ datetime_min <= wall (fst e) <= datetime_max.
Proof.
  unfold value_entries. intros H Hin.
  destruct (is_sentinel value); [injection H as <-; destruct Hin |].
  destruct (sget "periode" (attrib value)) as [periode |];
    [| discriminate H].
  cbn [orelse bind] in H.
  destruct (py_int periode) as [period |]; [| discriminate H].
  cbn [orelse bind] in H.
  destruct (replace_hours start_date period) as [dt | e0] eqn:Edt;
    [| discriminate H].
  cbn [bind] in H.
  destruct (float_of_text (text value)) as [p | e0]; [| discriminate H].
  cbn in H. injection H as <-. destruct Hin as [<- | []].
  apply replace_hours_range in Edt. destruct Edt as [-> Hrange].
  cbn. auto.
Qed.

(** X12: every record returned has its timestamp in the zone
    Europe/Paris, whatever zone or offset the [date] of its day was
    parsed with, and inside the range of [datetime]. *)
Theorem timestamps_anchored_in_paris (zone_key : string) (obj : element)
    (out : list datum) :
  fetch_price zone_key obj = Ok out ->
  Forall (fun r => tz (datetime r) = "Europe/Paris"
                   /\ datetime_min <= wall (datetime r) <= datetime_max)
         out.
Proof.
  intros Hout. destruct (fetch_price_inv _ _ Hout) as (es & Hes & ->).
  apply Forall_forall. intros r Hr.
  unfold dict_values in Hr. apply in_map_iff in Hr.
  destruct Hr as ([k d] & <- & Hin).
  apply fold_upsert_In in Hin. destruct Hin as [[] | (p & Hp & ->)].
  cbn [snd datetime].
  unfold entries in Hes. apply bind_ok in Hes.
  destruct Hes as (ess & Hess & Hes). injection Hes as <-.
  apply (traverse_concat_In _ _ (k, p) Hess) in Hp.
  destruct Hp as (day & es_day & _ & Eday & Hp).
  apply (day_entries_In _ _ (k, p) Eday) in Hp.
  destruct Hp as (_ & start_date & item & es_item & Hstart & _ & Eitem & Hp).
  apply (item_entries_In _ _ _ (k, p) Eitem) in Hp.
  destruct Hp as (_ & _ & value & es_value & _ & Evalue & Hp).
  destruct (@value_entries_keys start_date value es_value (k, p) Evalue Hp)
    as [Htz Hrange].
  apply start_of_ok in Hstart. destruct Hstart as (date & dt & _ & _ & ->).
  cbn in Htz, Hrange. auto.
Qed.

Lemma for_each_idle (A S : Type) (body : S -> A -> result S)
    (xs : list A) (s : S) :
  (forall x, In x xs -> body s x = Ok s) -> for_each body xs s = Ok s.
Proof.
  induction xs as [| x xs IH]; intros H; cbn; [reflexivity |].
  rewrite (H x (or_introl eq_refl)). cbn. apply IH.
  intros x' Hx'. apply H. right. exact Hx'.
Qed.

(** X13: a zone that no [Global] item of the document carries gives the
    empty list, not an exception, provided the [date] of every
    [donneesMarche] child parses; the entries of the other zones are not
    looked at. *)
Theorem unlisted_zone_gives_empty_list (zone_key : string)
    (obj : element) :
  (forall day,
      In day (children obj) -> tag day = "donneesMarche" ->
      (exists date dt, sget "date" (attrib day) = Some date
                       /\ arrow_get (JStr date) = Some dt)
      /\ forall item, In item (children day) ->
                      is_match zone_key item = false) ->
  fetch_price zone_key obj = Ok [].
Proof.
  intros H. unfold fetch_price.
  rewrite for_each_idle; [reflexivity |].
  intros day Hday. unfold day_step.
  destruct (String.eqb_spec (tag day) "donneesMarche") as [Htag | _];
    cbn [negb]; [| reflexivity].
  destruct (H day Hday Htag) as ((date & dt & Hd & Hdt) & Hitems).
  assert (Hstart : start_of day = Ok (mk_instant (wall dt) "Europe/Paris"))
    by (apply start_of_ok; eauto).
  rewrite Hstart. cbn [bind]. apply for_each_idle.
  intros item Hitem. apply item_step_skips, Hitems, Hitem.
Qed.

End MorePrice.

(** ** Instances of the further properties *)

Section FurtherInstances.

Import Samples.

Lemma only_selected_columns_read_witness :
  Production.fetch_production (B := Plain.builtins) "FR" payload
  = Production.fetch_production (B := Plain.builtins) "FR" payload_wide.
Proof.
  apply (@only_selected_columns_read Plain.builtins "FR" payload
           payload_wide).
  - apply float_sized_frame. reflexivity.
  - apply float_sized_frame. reflexivity.
  - unfold payload_wide, payload. cbn [map].
    repeat constructor; intros c Hc;
      repeat (destruct Hc as [<- | Hc]; [reflexivity |]); destruct Hc.
Defined.

(** An integer too large for a float stops the call at line 67, in a
    column that line 71 would not select as in one it would, and before
    the columns are looked for. *)
Example oversized_integer_raises :
  Production.fetch_production (B := Plain.builtins) "FR"
    (map (fun r => ("consommation", JInt (10 ^ 400)) :: r) payload)
  = Raise OverflowError
  /\ Production.fetch_production (B := Plain.builtins) "FR"
       [sset "nucleaire" (JInt (10 ^ 400)) row_half_hydro]
     = Raise OverflowError.
Proof. split; vm_compute; reflexivity. Qed.

Lemma payloads_concatenate_witness :
  Production.fetch_production (B := Plain.builtins) "FR"
    ([row_a; row_b] ++ [row_wind])%list
  = Ok (firstn 1 records ++ skipn 1 records)%list.
Proof.
  apply (@payloads_concatenate Plain.builtins "FR" [row_a; row_b]
           [row_wind] (firstn 1 records) (skipn 1 records));
    reflexivity.
Defined.

Lemma absent_column_raises_key_error_witness :
  Production.fetch_production (B := Plain.builtins) "FR" [row_half_hydro]
  = Raise KeyError.
Proof.
  apply (@absent_column_raises_key_error Plain.builtins "FR"
           [row_half_hydro] "hydraulique_fil_eau_eclusee").
  - apply float_sized_frame. reflexivity.
  - cbn. tauto.
  - intros row [<- | []]. reflexivity.
Defined.

Lemma fetch_production_returns_iff_witness :
  (exists out,
     Production.fetch_production (B := Plain.builtins) "FR" payload = Ok out)
  <->
  (forall c, In c ("date_heure" :: Production.value_columns) ->
             Production.has_column payload c = true)
  /\ (forall row c, In row payload -> In c Production.value_columns ->
         exists f, Production.astype_float (B := Plain.builtins)
                     (Production.cell row c) = Ok f)
  /\ (forall row s, In row payload ->
         Production.convert_row (B := Plain.builtins) row = Ok s ->
         Production.passing s = true ->
         arrow_get (Builtins := Plain.builtins) (Production.date_heure s)
         <> None).
Proof.
  apply (@fetch_production_returns_iff Plain.builtins "FR" payload).
  apply float_sized_frame. reflexivity.
Defined.

Lemma storage_negates_flow_witness :
  exists sto,
    Production.build_storage
      (Production.with_storage (nth 0 frame blank) (of_Z 800) (of_Z 0))
    = Ok [("hydro", sto)]
    /\ sto = opp (of_Z 800).
Proof.
  destruct (@storage_negates_flow
              (Production.with_storage (nth 0 frame blank) (of_Z 800)
                                       (of_Z 0))
              (of_Z 800) (of_Z 0) eq_refl eq_refl)
    as (sto & Hsto & Hpump & _).
  exists sto. split; [exact Hsto |]. apply Hpump; reflexivity.
Defined.

Lemma last_price_wins_witness :
  exists out,
    Price.fetch_price (B := Plain.builtins) "FR" mixed = Ok out
    /\ forall r, In r out ->
         exists es1 p es2,
           mixed_entries = (es1 ++ (Price.datetime r, p) :: es2)%list
           /\ ~ In (Price.datetime r) (map fst es2)
           /\ Price.price r = Some p.
Proof.
  apply (@last_price_wins Plain.builtins "FR" mixed mixed_entries).
  reflexivity.
Defined.

Lemma distinct_entries_returned_as_met_witness :
  Price.fetch_price (B := Plain.builtins) "FR" scenario_c
  = Ok (map (fun e => Price.mk_datum "FR" "EUR" (fst e) "rte-france.com"
                                     (Some (snd e)))
            scenario_c_entries).
Proof.
  apply (@distinct_entries_returned_as_met Plain.builtins "FR" scenario_c
           scenario_c_entries).
  - reflexivity.
  - repeat constructor; cbn; intros H;
      repeat (destruct H as [H | H]; [discriminate H |]); destruct H.
Defined.

Lemma timestamps_anchored_in_paris_witness :
  Forall (fun r => tz (Price.datetime r) = "Europe/Paris"
                   /\ datetime_min <= wall (Price.datetime r)
                      <= datetime_max)
         prices.
Proof.
  apply (@timestamps_anchored_in_paris Plain.builtins "FR" mixed prices).
  reflexivity.
Defined.

Lemma unlisted_zone_gives_empty_list_witness :
  Price.fetch_price (B := Plain.builtins) "ES" mixed = Ok [].
Proof.
  apply (@unlisted_zone_gives_empty_list Plain.builtins "ES" mixed).
  intros d Hd Htag.
  repeat (destruct Hd as [<- | Hd];
          [first [ discriminate Htag
                 | split;
                   [do 2 eexists; split; reflexivity
                   | intros i Hi;
                     repeat (destruct Hi as [<- | Hi]; [reflexivity |]);
                     destruct Hi ] ] |]).
  destruct Hd.
Defined.

End FurtherInstances.
